(** * dmriprep.utils: hemisphere test for diffusion gradient directions

    A shallow embedding of [src/dmriprep/utils.py]
    ([is_hemispherical] and [is_bval_bvec_hemispherical]) and the
    properties of it that the specification states.

    Numbers are IEEE-754 binary64 values, as numpy's [float64]: the
    executable specification of the Standard Library ([SpecFloat], the
    one primitive floats are specified against) is used, so NaN, signed
    zeros, infinities and round-to-nearest-even are those of the
    hardware.  What the source leaves to the libraries it runs on is a
    parameter of the development ([Runtime]): the inverse cosine of the
    C library on its domain [-1, 1], the inner product of the BLAS
    routine behind [np.dot] on rows without a NaN (it may round every
    product or fuse it with the sum, in any order), and the release of
    numpy, whose [np.isclose] changed with numpy 2.0. *)

From Stdlib Require Import String ZArith List Bool Lia Permutation.
From Stdlib Require Import Floats.SpecFloat.
Import ListNotations.
Local Open Scope Z_scope.

(** ** binary64 arithmetic *)

Module F64.

Definition float := spec_float.

Definition prec : Z := 53.
Definition emax : Z := 1024.

Definition nan : float := S754_nan.
Definition zero : float := S754_zero false.

Definition add : float -> float -> float := SFadd prec emax.
Definition sub : float -> float -> float := SFsub prec emax.
Definition mul : float -> float -> float := SFmul prec emax.
Definition div : float -> float -> float := SFdiv prec emax.
Definition sqrt : float -> float := SFsqrt prec emax.
Definition opp : float -> float := SFopp.
Definition abs : float -> float := SFabs.
Definition eqb : float -> float -> bool := SFeqb.
Definition ltb : float -> float -> bool := SFltb.
Definition leb : float -> float -> bool := SFleb.

(** An integer, rounded to the nearest double. *)
Definition of_Z (n : Z) : float := binary_normalize prec emax n 0 false.

(** The decimal literal [m]e[e] of the source text.  For a negative
    exponent the quotient of two exactly representable integers is
    correctly rounded, which is what the Python parser returns for the
    literals of this module (all have [m < 2^53] and [10^-e <= 10^22]). *)
Definition lit (m e : Z) : float :=
  if 0 <=? e then of_Z (m * 10 ^ e) else div (of_Z m) (of_Z (10 ^ (- e))).

Definition one : float := lit 1 0.
Definition two : float := lit 2 0.

Definition isnan (x : float) : bool :=
  match x with S754_nan => true | _ => false end.

Definition isfinite (x : float) : bool :=
  match x with
  | S754_zero _ | S754_finite _ _ _ => true
  | S754_infinity _ | S754_nan => false
  end.

(** Python's left-to-right accumulation, started from the first item. *)
Definition sum (l : list float) : float :=
  match l with
  | [] => zero
  | x :: t => fold_left add t x
  end.

End F64.

Import F64.

(** ** Python values: exceptions and results *)

Inductive exn : Type :=
| ValueError (args : list string)
| IndexError (args : list string).

Inductive result (A : Type) : Type :=
| Ok (a : A)
| Raise (e : exn).
Arguments Ok {A} a.
Arguments Raise {A} e.

Definition bind {A B : Type} (r : result A) (k : A -> result B) : result B :=
  match r with
  | Ok a => k a
  | Raise e => Raise e
  end.

Notation "x <- r ;; k" := (bind r (fun x => k))
  (at level 61, r at next level, right associativity).
Notation "' p <- r ;; k" := (bind r (fun x => let p := x in k))
  (at level 61, p pattern, r at next level, right associativity).

(** The error classes of the specification are the [ValueError]s of the
    source, told apart by their message. *)
Definition InvalidDimensionError : exn :=
  ValueError ["Input vectors must be 3D vectors"%string].
Definition NotUnitVectorError : exn :=
  ValueError ["Input vectors must be unit vectors"%string].
Definition UnpackError (got : string) : exn :=
  ValueError [("not enough values to unpack (expected 2, got " ++ got ++ ")")%string].

(** ** numpy arrays and the numpy functions the module calls *)

(** A two-dimensional [float64] array: [shape1] is [shape[1]] and the
    rows are listed in order, so [shape[0]] is their number.  An array
    with no row still has a second dimension.  Arrays of another dtype
    are outside the model: an integer array, for one, goes through the
    two checks like its conversion to [float64] and then fails at the
    in-place division of line 52 with a [TypeError]. *)
Record ndarray : Type := mk_ndarray {
  shape1 : nat;
  rows : list (list float)
}.

Definition wf_ndarray (a : ndarray) : Prop :=
  Forall (fun r => length r = shape1 a) (rows a).

Definition len (a : ndarray) : Z := Z.of_nat (length (rows a)).

Module np.

(** [np.pi], the double nearest to pi. *)
Definition pi : float := lit 3141592653589793 (-15).

(** [np.linalg.norm] of one row: the square root of the sum of the
    squares, added from left to right. *)
Definition norm (v : list float) : float :=
  sqrt (sum (map (fun x => mul x x) v)).

(** [np.linalg.norm(a, axis=1)]. *)
Definition norm_axis1 (a : list (list float)) : list float := map norm a.

(** [np.cross] of two 3-vectors. *)
Definition cross (a b : list float) : list float :=
  match a, b with
  | [a0; a1; a2], [b0; b1; b2] =>
      [ sub (mul a1 b2) (mul a2 b1);
        sub (mul a2 b0) (mul a0 b2);
        sub (mul a0 b1) (mul a1 b0) ]
  | _, _ => []
  end.

(** [np.cross(v0, v1)] on two sequences of rows. *)
Definition cross_rows (v0 v1 : list (list float)) : list (list float) :=
  map (fun p => cross (fst p) (snd p)) (combine v0 v1).

(** [a /= n[:, np.newaxis]]: every row divided by its own scalar. *)
Definition div_rows (a : list (list float)) (n : list float) : list (list float) :=
  map (fun p => map (fun x => div x (snd p)) (fst p)) (combine a n).

(** One way to evaluate an inner product: every product rounded, the
    products added from left to right.  It is the value of any
    evaluation, fused or not and in any order, when at most one product
    is not zero; it serves as the mathematical dot product of the
    specification and to run examples. *)
Definition dot1 (a b : list float) : float :=
  sum (map (fun p => mul (fst p) (snd p)) (combine a b)).

(** A row with a NaN entry. *)
Definition has_nan (v : list float) : bool := existsb isnan v.

(** The releases of numpy, as far as this module can tell them apart. *)
Inductive version : Type :=
| numpy_1   (* releases before 2.0 *)
| numpy_2.  (* releases from 2.0 on *)

(** [np.isclose(x, y, rtol, atol)] on scalars, [equal_nan=False].
    Before 2.0: the tolerance test when both are finite, else [x == y].
    From 2.0 on: the tolerance test and [y] finite, or [x == y]. *)
Definition rtol_default : float := lit 1 (-5).

Definition within_tol (x y atol rtol : float) : bool :=
  leb (abs (sub x y)) (add atol (mul rtol (abs y))).

Definition isclose (ver : version) (x y rtol atol : float) : bool :=
  match ver with
  | numpy_1 =>
      if isfinite x && isfinite y then within_tol x y atol rtol else eqb x y
  | numpy_2 =>
      (within_tol x y atol rtol && isfinite y) || eqb x y
  end.

(** [np.allclose(x, ys, atol=atol)] with a scalar [x]. *)
Definition allclose (ver : version) (x : float) (ys : list float) (atol : float)
  : bool :=
  forallb (fun y => isclose ver x y rtol_default atol) ys.

(** [b.astype(int)] and [np.sum(_, axis=1)] on a boolean matrix. *)
Definition astype_int (b : bool) : Z := if b then 1 else 0.

Definition sum_int (l : list Z) : Z := fold_left Z.add l 0.

Definition sum_axis1 (m : list (list bool)) : list Z :=
  map (fun r => sum_int (map astype_int r)) m.

(** [a[mask]] with a boolean mask over the rows. *)
Definition select {A : Type} (mask : list bool) (a : list A) : list A :=
  map snd (filter fst (combine mask a)).

(** [np.sum(a, axis=0)] for rows of three entries. *)
Definition add_rows (u v : list float) : list float :=
  map (fun p => add (fst p) (snd p)) (combine u v).

Definition sum_axis0 (a : list (list float)) : list float :=
  match a with
  | [] => [zero; zero; zero]
  | r :: t => fold_left add_rows t r
  end.

(** [np.mean(a, axis=0)]: the column sums over the number of rows. *)
Definition mean_axis0 (a : list (list float)) : list float :=
  map (fun s => div s (of_Z (Z.of_nat (length a)))) (sum_axis0 a).

(** A row divided by its norm, as line 52 does with every row. *)
Definition normalize (v : list float) : list float :=
  let n := norm v in map (fun x => div x n) v.

End np.

(** ** itertools and tuple unpacking *)

Module itertools.

(** [itertools.permutations(pool, 2)]: the ordered pairs of items at
    two different positions, in lexicographic order of the positions.
    [pre] holds the items before the current one. *)
Fixpoint permutations2_from {A : Type} (pre l : list A) : list (A * A) :=
  match l with
  | [] => []
  | x :: post =>
      map (pair x) (pre ++ post) ++ permutations2_from (pre ++ [x]) post
  end.

Definition permutations2 {A : Type} (pool : list A) : list (A * A) :=
  permutations2_from [] pool.

End itertools.

(** [zip( *pairs)] for a list of 2-tuples: nothing for the empty list,
    else the tuple of first items and the tuple of second items. *)
Definition zip_star {A : Type} (pairs : list (A * A)) : list (list A) :=
  match pairs with
  | [] => []
  | _ :: _ => [map fst pairs; map snd pairs]
  end.

(** [a, b = it]. *)
Definition unpack2 {A : Type} (it : list A) : result (A * A) :=
  match it with
  | [a; b] => Ok (a, b)
  | [] => Raise (UnpackError "0")
  | [_] => Raise (UnpackError "1")
  | _ => Raise (ValueError ["too many values to unpack (expected 2)"%string])
  end.

(** ** The module [dmriprep.utils] *)

(** [atol=10e-4], the default of both functions. *)
Definition atol_default : float := lit 10 (-4).

(** What the libraries under the module decide. *)
Record Runtime : Type := mk_runtime {
  (** the release of numpy *)
  numpy : np.version;
  (** the C library's [acos] on its domain [-1, 1], whose values
      IEEE-754 does not fix *)
  libm_acos : float -> float;
  (** the inner product computed by the BLAS routine behind [np.dot], on
      two rows without a NaN *)
  blas_dot : list float -> list float -> float
}.

Section Utils.

Variable R : Runtime.

(** [np.arccos]: NaN for a NaN and outside of [-1, 1] (an invalid
    operation, which numpy reports as a warning, not an exception). *)
Definition arccos (x : float) : float :=
  if isnan x then nan
  else if ltb one (abs x) then nan
  else libm_acos R x.

(** The inner product of two rows as [np.dot] computes it: a NaN among
    the entries makes every evaluation, rounded or fused, return NaN. *)
Definition dot (a b : list float) : float :=
  if np.has_nan a || np.has_nan b then nan else blas_dot R a b.

(** [np.dot(a, b.transpose())]: entry (k, m) is the inner product of
    row k of [a] and row m of [b]. *)
Definition dot_T (a b : list (list float)) : list (list float) :=
  map (fun c => map (fun v => dot c v) b) a.

(** [np.linalg.norm(v)] of a one-dimensional array, which numpy
    computes as [sqrt(v.dot(v))]. *)
Definition norm_1d (v : list float) : float := sqrt (dot v v).

(** [v /= np.linalg.norm(v)] on a one-dimensional array. *)
Definition normalize_1d (v : list float) : list float :=
  let n := norm_1d v in map (fun x => div x n) v.

(** The test of line 60 on one entry of the angle matrix. *)
Definition orthogonal_or_less (angle : float) : bool :=
  leb angle (div np.pi two).

(** Lines 47-52: the normalised cross products of the pairs. *)
Definition normalized_cross_prods (v0 v1 : list (list float)) : list (list float) :=
  let cross_prods := np.cross_rows v0 v1 in
  np.div_rows cross_prods (np.norm_axis1 cross_prods).

(** Lines 57-60: the boolean matrix [dot_prod_test]. *)
Definition dot_prod_test (cross_prods : list (list float)) (vecs : ndarray)
  : list (list bool) :=
  let angles := map (map arccos) (dot_T cross_prods (rows vecs)) in
  map (map orthogonal_or_less) angles.

Definition is_hemispherical (vecs : ndarray) (atol : float)
  : result (bool * list float) :=
  if negb (shape1 vecs =? 3)%nat then
    Raise InvalidDimensionError
  else if negb (np.allclose (numpy R) one (np.norm_axis1 (rows vecs)) atol) then
    Raise NotUnitVectorError
  else
    '(v0, v1) <- unpack2 (zip_star (itertools.permutations2 (rows vecs))) ;;
    let cross_prods := normalized_cross_prods v0 v1 in
    let test := dot_prod_test cross_prods vecs in
    let is_hemi := existsb (Z.eqb (len vecs)) (np.sum_axis1 test) in
    if is_hemi then
      let vertices :=
        np.select (map (fun s => s =? len vecs) (np.sum_axis1 test)) cross_prods in
      let pole := np.mean_axis0 vertices in
      let pole := normalize_1d pole in
      Ok (is_hemi, pole)
    else
      let pole := [lit 0 0; lit 0 0; lit 0 0] in
      Ok (is_hemi, pole).

(** *** The entry point on gradient tables *)

(** What the function reads of a DIPY [GradientTable]. *)
Record GradientTable : Type := mk_gtab {
  bvecs : ndarray;
  b0s_mask : list bool
}.

(** [dipy.core.gradients.gradient_table], which reads the two files;
    it is not part of this module and may raise. *)
Variable gradient_table : string -> string -> result GradientTable.

(** [gtab.bvecs[~gtab.b0s_mask]]: the rows whose mask entry is false;
    numpy raises [IndexError] when the mask has another length. *)
Definition non_b0_bvecs (gtab : GradientTable) : result ndarray :=
  if (length (b0s_mask gtab) =? length (rows (bvecs gtab)))%nat then
    Ok (mk_ndarray (shape1 (bvecs gtab))
                   (np.select (map negb (b0s_mask gtab)) (rows (bvecs gtab))))
  else
    Raise (IndexError ["boolean index did not match indexed array"%string]).

Definition is_None {A : Type} (o : option A) : bool :=
  match o with None => true | Some _ => false end.

Definition MissingInputError : exn :=
  ValueError ["`is_bval_bvec_hemispherical` requires"%string;
              "either a GradientTable object or full paths"%string;
              "as input"%string].
Definition BothInputsError : exn :=
  ValueError ["`is_bval_bvec_hemispherical takes` either "%string;
              "a GradientTable object or full paths, but not "%string;
              "both"%string].

Definition is_bval_bvec_hemispherical
    (gtab : option GradientTable) (bval_file bvec_file : option string)
    (atol : float) : result (bool * list float) :=
  gtab <-
    match gtab with
    | None =>
        match bval_file, bvec_file with
        | Some bval, Some bvec => gradient_table bval bvec
        | _, _ => Raise MissingInputError
        end
    | Some g =>
        if negb (is_None bval_file) || negb (is_None bvec_file) then
          Raise BothInputsError
        else Ok g
    end ;;
  vecs <- non_b0_bvecs gtab ;;
  is_hemispherical vecs atol.

End Utils.

(** A stand-in for the C library's [acos], to run the functions on
    examples: the chord through the exact values at -1, 0 and 1. *)
Definition acos_chord (x : float) : float :=
  sub (div np.pi two) (mul x (div np.pi two)).

(** A runtime to run the functions on examples. *)
Definition example_runtime : Runtime :=
  mk_runtime np.numpy_2 acos_chord np.dot1.

(** ** Definitions used to state the properties *)

Definition e1 : list float := [one; zero; zero].
Definition e2 : list float := [zero; one; zero].
Definition e3 : list float := [zero; zero; one].

(** The pairs of a pool as a multiset, by recursion on the pool alone. *)
Fixpoint pairs_of {A : Type} (l : list A) : list (A * A) :=
  match l with
  | [] => []
  | x :: t => map (pair x) t ++ map (fun y => (y, x)) t ++ pairs_of t
  end.

(** The candidate of an ordered pair of input vectors. *)
Definition candidate (p : list float * list float) : list float :=
  np.normalize (np.cross (fst p) (snd p)).

Definition candidates (vecs : ndarray) : list (list float) :=
  map candidate (itertools.permutations2 (rows vecs)).

(** Candidate [c] passes against [v]: [arccos(c . v) <= pi / 2]. *)
Definition passes (R : Runtime) (c v : list float) : bool :=
  leb (arccos R (dot R c v)) (div np.pi two).

(** A vertex passes against every input vector. *)
Definition is_vertex (R : Runtime) (vecs : ndarray) (c : list float) : bool :=
  forallb (passes R c) (rows vecs).

(** The dot products on which [np.arccos] returns a number. *)
Definition in_domain (d : float) : bool :=
  negb (isnan d) && negb (ltb one (abs d)).

(** The pass test and the verdict in the words of the specification:
    a candidate passes against [v] when [c . v >= 0]. *)
Definition spec_passes (c v : list float) : bool := leb zero (np.dot1 c v).

Definition spec_is_hemi (vecs : ndarray) : bool :=
  existsb (fun c => forallb (spec_passes c) (rows vecs)) (candidates vecs).

(** The orthogonal frame scaled by 1.0005: each vector is a unit vector
    within the default tolerance. *)
Definition scaled_frame : ndarray :=
  let a := lit 10005 (-4) in
  mk_ndarray 3 [[a; zero; zero]; [zero; a; zero]; [zero; zero; a]].

(** The bound of the specification's words: [|norm - 1| <= tolerance +
    tolerance * 1]. *)
Definition spec_within_bound (tolerance norm : float) : bool :=
  leb (abs (sub norm one)) (add tolerance (mul tolerance one)).

(** Two orthogonal vectors, the first of norm 1.0015. *)
Definition long_pair : ndarray :=
  mk_ndarray 3 [[lit 10015 (-4); zero; zero]; [zero; one; zero]].

(** Zero of either sign, or NaN: what the cross product of a vector and
    its antipode is made of. *)
Definition degenerate (x : float) : bool :=
  match x with
  | S754_zero _ | S754_nan => true
  | _ => false
  end.

(** The boolean of a result, or its exception. *)
Definition is_hemi_of (r : result (bool * list float)) : result bool :=
  x <- r ;; Ok (fst x).

(** A gradient table of one b0 sample and three directions, and a loader
    that returns it for any pair of paths. *)
Definition example_gtab : GradientTable :=
  mk_gtab (mk_ndarray 3 [[zero; zero; zero]; e1; e2; e3]) [true; false; false; false].

Definition example_gradient_table (bval_file bvec_file : string)
  : result GradientTable := Ok example_gtab.

(** The error condition in the words of the specification: a table
    together with file paths, or neither a table nor any file path. *)
Definition spec_invalid_combination {T : Type}
    (gtab : option T) (bval_file bvec_file : option string) : bool :=
  (negb (is_None gtab) && (negb (is_None bval_file) || negb (is_None bvec_file)))
  || (is_None gtab && is_None bval_file && is_None bvec_file).

(** ** The function as a procedure on the Python store (C8) *)

(** The store a call runs in: the array objects, addressed by
    reference, and the module's global [mod_logger] (the records it
    holds).  The function body reads its argument through a reference
    and updates in place ([/=]) the arrays bound to [cross_prods] and
    [pole]: these two are objects of the store.  The other arrays the
    body creates are only read, and are values here; how many objects a
    call allocates, and which references they get, is therefore not
    that of the interpreter. *)
Module Store.

Inductive array : Type :=
| A2 (a : ndarray)
| A1 (v : list float).

Definition ref := nat.

Record state : Type := mk_state {
  heap : list array;
  mod_logger : list string
}.

Definition M (A : Type) : Type := state -> result A * state.

Definition ret {A : Type} (a : A) : M A := fun s => (Ok a, s).
Definition raise {A : Type} (e : exn) : M A := fun s => (Raise e, s).
Definition lift {A : Type} (r : result A) : M A := fun s => (r, s).

Definition bindM {A B : Type} (m : M A) (k : A -> M B) : M B :=
  fun s =>
    match m s with
    | (Ok a, s') => k a s'
    | (Raise e, s') => (Raise e, s')
    end.

Fixpoint update {A : Type} (n : nat) (x : A) (l : list A) : list A :=
  match l, n with
  | [], _ => []
  | _ :: t, O => x :: t
  | y :: t, S n' => y :: update n' x t
  end.

Definition as_2d (o : array) : ndarray :=
  match o with A2 a => a | A1 v => mk_ndarray (length v) [] end.
Definition as_1d (o : array) : list float :=
  match o with A1 v => v | A2 _ => [] end.

(** Allocation of a new array object. *)
Definition new (o : array) : M ref :=
  fun s => (Ok (length (heap s)), mk_state (heap s ++ [o]) (mod_logger s)).

Definition get (r : ref) : M array :=
  fun s => (Ok (nth r (heap s) (A1 [])), s).

(** Update of an array object in place. *)
Definition put (r : ref) (o : array) : M unit :=
  fun s => (Ok tt, mk_state (update r o (heap s)) (mod_logger s)).

End Store.

Notation "x <~ m ;; k" := (Store.bindM m (fun x => k))
  (at level 61, m at next level, right associativity).

Section Procedure.

Import Store.

Variable R : Runtime.

Definition is_hemispherical_st (vecs : ref) (atol : float) : M (bool * ref) :=
  a <~ get vecs ;;
  if negb (shape1 (as_2d a) =? 3)%nat then
    raise InvalidDimensionError
  else if negb (np.allclose (numpy R) one (np.norm_axis1 (rows (as_2d a))) atol) then
    raise NotUnitVectorError
  else
    v01 <~ lift (unpack2 (zip_star (itertools.permutations2 (rows (as_2d a))))) ;;
    cross_prods <~ new (A2 (mk_ndarray 3 (np.cross_rows (fst v01) (snd v01)))) ;;
    c <~ get cross_prods ;;
    _ <~ put cross_prods
           (A2 (mk_ndarray 3 (np.div_rows (rows (as_2d c))
                                          (np.norm_axis1 (rows (as_2d c)))))) ;;
    c <~ get cross_prods ;;
    a <~ get vecs ;;
    let test := dot_prod_test R (rows (as_2d c)) (as_2d a) in
    let is_hemi := existsb (Z.eqb (len (as_2d a))) (np.sum_axis1 test) in
    if is_hemi then
      pole <~ new (A1 (np.mean_axis0
                         (np.select (map (fun s => s =? len (as_2d a))
                                         (np.sum_axis1 test))
                                    (rows (as_2d c))))) ;;
      p <~ get pole ;;
      _ <~ put pole (A1 (map (fun x => div x (norm_1d R (as_1d p))) (as_1d p))) ;;
      ret (is_hemi, pole)
    else
      pole <~ new (A1 [lit 0 0; lit 0 0; lit 0 0]) ;;
      ret (is_hemi, pole).

(** The returned pair, with the pole read from the store. *)
Definition observe (out : result (bool * ref) * state) : result (bool * list float) :=
  x <- fst out ;;
  Ok (fst x, as_1d (nth (snd x) (heap (snd out)) (A1 []))).

End Procedure.

(** ** Classes of values met by the norm *)

(** NaN, or a value whose sign bit is clear: what a square and a sum of
    squares can be. *)
Definition nonneg_or_nan (x : float) : bool :=
  match x with
  | S754_nan | S754_zero false | S754_infinity false | S754_finite false _ _ => true
  | _ => false
  end.

(** NaN or plus infinity: what a sum of squares is once a term is not
    finite. *)
Definition inf_or_nan (x : float) : bool :=
  match x with
  | S754_nan | S754_infinity false => true
  | _ => false
  end.

(** The antipode of a row. *)
Definition antipode (v : list float) : list float := map opp v.

(** A gradient table made of b0 samples only. *)
Definition all_b0_gtab : GradientTable :=
  mk_gtab (mk_ndarray 3 [[zero; zero; zero]; [zero; zero; zero]]) [true; true].

(** Two values of the same magnitude and opposite signs, the sign of a
    zero being free: how [q - p] relates to [p - q]. *)
Definition mirror (x y : float) : Prop :=
  y = opp x \/
  ((exists s, x = S754_zero s) /\ (exists s, y = S754_zero s)).

(** * Properties *)

(** ** Examples: the functions run *)

Example literal_values :
  one = S754_finite false 4503599627370496 (-52) /\
  lit 0 0 = zero /\
  div np.pi two = S754_finite false 7074237752028440 (-52).
Proof. repeat split; vm_compute; reflexivity. Qed.

Example permutations2_123 :
  itertools.permutations2 [1; 2; 3] = [(1, 2); (1, 3); (2, 1); (2, 3); (3, 1); (3, 2)].
Proof. reflexivity. Qed.

Example octant_is_hemispherical :
  exists p,
    is_hemispherical example_runtime (mk_ndarray 3 [e1; e2; e3]) atol_default
    = Ok (true, [p; p; p]).
Proof. eexists. vm_compute. reflexivity. Qed.

(** ** Validation (lines 42-45) *)

Section Validation.

Variable R : Runtime.

Lemma unpack2_zip_star_nil (A : Type) :
  unpack2 (@zip_star A []) = Raise (UnpackError "0").
Proof. reflexivity. Qed.

Lemma unpack2_zip_star_cons (A : Type) (p : A * A) (ps : list (A * A)) :
  unpack2 (zip_star (p :: ps)) = Ok (map fst (p :: ps), map snd (p :: ps)).
Proof. reflexivity. Qed.

(** The three ways out of the function before the hemisphere test. *)
Lemma is_hemispherical_bad_shape vecs atol :
  shape1 vecs <> 3%nat ->
  is_hemispherical R vecs atol = Raise InvalidDimensionError.
Proof.
  intros H. unfold is_hemispherical.
  destruct (Nat.eqb_spec (shape1 vecs) 3) as [E | E]; [contradiction | reflexivity].
Qed.

Lemma is_hemispherical_not_unit vecs atol :
  shape1 vecs = 3%nat ->
  np.allclose (numpy R) one (np.norm_axis1 (rows vecs)) atol = false ->
  is_hemispherical R vecs atol = Raise NotUnitVectorError.
Proof.
  intros H3 Hc. unfold is_hemispherical.
  rewrite H3, Hc. reflexivity.
Qed.

Lemma is_hemispherical_checked vecs atol :
  shape1 vecs = 3%nat ->
  np.allclose (numpy R) one (np.norm_axis1 (rows vecs)) atol = true ->
  is_hemispherical R vecs atol =
  match itertools.permutations2 (rows vecs) with
  | [] => Raise (UnpackError "0")
  | p :: ps =>
      let cross_prods :=
        normalized_cross_prods (map fst (p :: ps)) (map snd (p :: ps)) in
      let test := dot_prod_test R cross_prods vecs in
      if existsb (Z.eqb (len vecs)) (np.sum_axis1 test) then
        Ok (true,
            normalize_1d R (np.mean_axis0
              (np.select (map (fun s => s =? len vecs) (np.sum_axis1 test))
                         cross_prods)))
      else Ok (false, [zero; zero; zero])
  end.
Proof.
  intros H3 Hc. unfold is_hemispherical.
  rewrite H3, Hc. cbn [Nat.eqb negb].
  destruct (itertools.permutations2 (rows vecs)) as [| p ps].
  - reflexivity.
  - rewrite unpack2_zip_star_cons. cbn [bind].
    match goal with |- context [existsb ?f ?l] => destruct (existsb f l) end;
      reflexivity.
Qed.

Lemma isclose_one n atol :
  np.isclose (numpy R) one n np.rtol_default atol =
  (isfinite n && leb (abs (sub one n)) (add atol (mul np.rtol_default (abs n))))
  || match numpy R with np.numpy_1 => false | np.numpy_2 => eqb one n end.
Proof.
  unfold np.isclose, np.within_tol.
  replace one with (S754_finite false 4503599627370496 (-52))
    by (vm_compute; reflexivity).
  destruct (numpy R).
  - rewrite orb_false_r.
    destruct n as [s | s | | s m e]; try reflexivity; destruct s; reflexivity.
  - rewrite (andb_comm (isfinite n)). reflexivity.
Qed.

Lemma allclose_false ver x ys atol :
  np.allclose ver x ys atol = false <->
  exists y, In y ys /\ np.isclose ver x y np.rtol_default atol = false.
Proof.
  unfold np.allclose. induction ys as [| y ys IH]; cbn [forallb].
  - split; [discriminate | intros (y & [] & _)].
  - rewrite andb_false_iff, IH. split.
    + intros [H | (z & Hz & H)]; [exists y | exists z]; cbn; auto.
    + intros (z & [<- | Hz] & H); [left | right; exists z]; auto.
Qed.

End Validation.

(** ** The ordered pairs of [itertools.permutations] *)

Section Pairs.

Context {A : Type}.
Implicit Types (pre l : list A).

Lemma length_permutations2_from pre l :
  length (itertools.permutations2_from pre l)
  = (length l * (length pre + length l - 1))%nat.
Proof.
  revert pre. induction l as [| x post IH]; intros pre; cbn [itertools.permutations2_from].
  - reflexivity.
  - rewrite length_app, length_map, IH, !length_app. cbn [length]. nia.
Qed.

Lemma length_permutations2 l :
  length (itertools.permutations2 l) = (length l * (length l - 1))%nat.
Proof. unfold itertools.permutations2. rewrite length_permutations2_from. reflexivity. Qed.

Lemma permutations2_nil_iff l :
  itertools.permutations2 l = [] <-> (length l <= 1)%nat.
Proof.
  rewrite <- length_zero_iff_nil, length_permutations2. nia.
Qed.

(** A pair is listed exactly when its items sit at two different
    positions of the pool. *)
Lemma In_permutations2_from pre l a b :
  In (a, b) (itertools.permutations2_from pre l) <->
  exists i j, (length pre <= i)%nat /\ i <> j /\
              nth_error (pre ++ l) i = Some a /\ nth_error (pre ++ l) j = Some b.
Proof.
  revert pre. induction l as [| x post IH]; intros pre; cbn [itertools.permutations2_from].
  - split; [intros [] |]. intros (i & j & Hi & _ & Ha & _).
    rewrite app_nil_r in Ha.
    assert (i < length pre)%nat by (apply nth_error_Some; congruence). lia.
  - rewrite in_app_iff, in_map_iff, IH. split.
    + intros [(y & [= <- <-] & Hy) | (i & j & Hi & Hij & Ha & Hb)].
      * apply In_nth_error in Hy. destruct Hy as (k & Hk).
        exists (length pre).
        destruct (Nat.lt_ge_cases k (length pre)) as [Hlt | Hge].
        -- exists k. repeat split; try lia.
           ++ rewrite nth_error_app2, Nat.sub_diag by lia. reflexivity.
           ++ rewrite nth_error_app1 in Hk |- * by lia. exact Hk.
        -- exists (S k). repeat split; try lia.
           ++ rewrite nth_error_app2, Nat.sub_diag by lia. reflexivity.
           ++ rewrite nth_error_app2 in Hk |- * by lia.
              replace (S k - length pre)%nat with (S (k - length pre)) by lia.
              exact Hk.
      * rewrite <- app_assoc in Ha, Hb. rewrite length_app in Hi. cbn in *.
        exists i, j. repeat split; auto; lia.
    + intros (i & j & Hi & Hij & Ha & Hb).
      destruct (Nat.eq_dec i (length pre)) as [-> | Hne].
      * left. rewrite nth_error_app2, Nat.sub_diag in Ha by lia.
        injection Ha as <-. exists b. split; [reflexivity |].
        destruct (Nat.lt_ge_cases j (length pre)) as [Hlt | Hge].
        -- rewrite nth_error_app1 in Hb by lia.
           apply in_or_app. left. eapply nth_error_In; eauto.
        -- rewrite nth_error_app2 in Hb by lia.
           destruct (j - length pre)%nat as [| k] eqn:Ek; [lia |].
           apply in_or_app. right. eapply nth_error_In; eauto.
      * right. exists i, j. rewrite <- app_assoc, length_app. cbn.
        repeat split; auto; lia.
Qed.

Lemma In_permutations2 l a b :
  In (a, b) (itertools.permutations2 l) <->
  exists i j, i <> j /\ nth_error l i = Some a /\ nth_error l j = Some b.
Proof.
  unfold itertools.permutations2. rewrite In_permutations2_from. cbn.
  split; intros (i & j & H); exists i, j; intuition lia.
Qed.

Lemma flat_map_pair_snoc pre x l :
  Permutation (flat_map (fun y => map (pair y) (pre ++ [x])) l)
              (flat_map (fun y => map (pair y) pre) l ++ map (fun y => (y, x)) l).
Proof.
  induction l as [| y t IH]; cbn [flat_map map].
  - reflexivity.
  - rewrite map_app. cbn [map]. rewrite IH, <- !app_assoc.
    apply Permutation_app_head. cbn [app].
    rewrite Permutation_middle. reflexivity.
Qed.

Lemma permutations2_from_pairs_of pre l :
  Permutation (itertools.permutations2_from pre l)
              (flat_map (fun y => map (pair y) pre) l ++ pairs_of l).
Proof.
  revert pre. induction l as [| x post IH]; intros pre;
    cbn [itertools.permutations2_from flat_map pairs_of].
  - reflexivity.
  - rewrite IH, flat_map_pair_snoc, map_app, <- !app_assoc.
    apply Permutation_app_head, Permutation_app_swap_app.
Qed.

Lemma permutations2_pairs_of l :
  Permutation (itertools.permutations2 l) (pairs_of l).
Proof.
  unfold itertools.permutations2. rewrite permutations2_from_pairs_of.
  replace (flat_map (fun y => map (pair y) []) l) with (@nil (A * A)); [reflexivity |].
  induction l; cbn; auto.
Qed.

Lemma pairs_of_Permutation l l' :
  Permutation l l' -> Permutation (pairs_of l) (pairs_of l').
Proof.
  induction 1 as [| x l l' Hp IH | x y l | l l' l'' _ IH1 _ IH2]; cbn [pairs_of map].
  - reflexivity.
  - rewrite IH, Hp. reflexivity.
  - cbn [app].
    set (Py := map (pair y) l). set (Sy := map (fun z => (z, y)) l).
    set (Px := map (pair x) l). set (Sx := map (fun z => (z, x)) l).
    transitivity ((y, x) :: (x, y) :: (Py ++ Sy) ++ (Px ++ Sx) ++ pairs_of l).
    + apply perm_skip. rewrite <- !app_assoc. symmetry. apply Permutation_middle.
    + transitivity ((x, y) :: (y, x) :: (Px ++ Sx) ++ (Py ++ Sy) ++ pairs_of l).
      * etransitivity; [apply perm_swap |].
        do 2 apply perm_skip. apply Permutation_app_swap_app.
      * apply perm_skip. rewrite <- !app_assoc. apply Permutation_middle.
  - etransitivity; eauto.
Qed.

Lemma permutations2_Permutation l l' :
  Permutation l l' ->
  Permutation (itertools.permutations2 l) (itertools.permutations2 l').
Proof.
  intros H. rewrite !permutations2_pairs_of. apply pairs_of_Permutation, H.
Qed.

End Pairs.

(** ** Candidates and vertices (lines 47-72) *)

Section Vertices.

Variable R : Runtime.

Lemma combine_fst_snd (A B : Type) (ps : list (A * B)) :
  combine (map fst ps) (map snd ps) = ps.
Proof.
  induction ps as [| [a b] ps IH]; cbn; [| rewrite IH]; reflexivity.
Qed.

Lemma div_rows_norm l :
  np.div_rows l (np.norm_axis1 l) = map np.normalize l.
Proof.
  unfold np.div_rows, np.norm_axis1.
  induction l as [| r l IH]; cbn [map combine]; [| rewrite IH]; reflexivity.
Qed.

Lemma normalized_cross_prods_pairs ps :
  normalized_cross_prods (map fst ps) (map snd ps) = map candidate ps.
Proof.
  unfold normalized_cross_prods, np.cross_rows.
  rewrite div_rows_norm, combine_fst_snd, map_map. reflexivity.
Qed.

Lemma fold_left_add_acc (l : list Z) (a : Z) :
  fold_left Z.add l a = a + np.sum_int l.
Proof.
  unfold np.sum_int. revert a.
  induction l as [| x l IH]; intros a; cbn [fold_left]; [lia |].
  rewrite IH, (IH (0 + x)). lia.
Qed.

Lemma sum_int_cons x l : np.sum_int (x :: l) = x + np.sum_int l.
Proof. unfold np.sum_int at 1. cbn [fold_left]. apply fold_left_add_acc. Qed.

Lemma sum_int_bounds (r : list bool) :
  0 <= np.sum_int (map np.astype_int r) <= Z.of_nat (length r).
Proof.
  induction r as [| b r IH]; cbn [map length].
  - cbn. lia.
  - rewrite sum_int_cons. destruct b; cbn [np.astype_int]; lia.
Qed.

(** The row sum reaches the number of columns only when every entry
    of the row is true. *)
Lemma sum_int_full (r : list bool) :
  (np.sum_int (map np.astype_int r) =? Z.of_nat (length r)) = forallb id r.
Proof.
  induction r as [| b r IH]; cbn [map length forallb].
  - reflexivity.
  - rewrite sum_int_cons. pose proof (sum_int_bounds r) as Hb.
    destruct b; cbn [np.astype_int id andb].
    + rewrite <- IH. rewrite Nat2Z.inj_succ.
      destruct (Z.eqb_spec (np.sum_int (map np.astype_int r)) (Z.of_nat (length r)));
        [apply Z.eqb_eq | apply Z.eqb_neq]; lia.
    + apply Z.eqb_neq. lia.
Qed.

Lemma dot_prod_test_rows cs vecs :
  dot_prod_test R cs vecs = map (fun c => map (passes R c) (rows vecs)) cs.
Proof.
  unfold dot_prod_test, dot_T, orthogonal_or_less, passes.
  rewrite !map_map. apply map_ext. intros c. rewrite !map_map. reflexivity.
Qed.

Lemma forallb_id_map (A : Type) (f : A -> bool) l :
  forallb id (map f l) = forallb f l.
Proof. induction l as [| x l IH]; cbn; [| rewrite IH]; reflexivity. Qed.

Lemma pass_count_full vecs c :
  (np.sum_int (map np.astype_int (map (passes R c) (rows vecs))) =? len vecs)
  = is_vertex R vecs c.
Proof.
  unfold len, is_vertex.
  rewrite <- (length_map (passes R c) (rows vecs)), sum_int_full.
  apply forallb_id_map.
Qed.

Lemma vertex_mask cs vecs :
  map (fun s => s =? len vecs) (np.sum_axis1 (dot_prod_test R cs vecs))
  = map (is_vertex R vecs) cs.
Proof.
  rewrite dot_prod_test_rows. unfold np.sum_axis1. rewrite !map_map.
  apply map_ext. intros c. apply pass_count_full.
Qed.

Lemma existsb_len_in vecs (sums : list Z) :
  existsb (Z.eqb (len vecs)) sums = existsb id (map (fun s => s =? len vecs) sums).
Proof.
  induction sums as [| s sums IH]; cbn [existsb map]; [reflexivity |].
  rewrite IH, (Z.eqb_sym (len vecs) s). reflexivity.
Qed.

Lemma existsb_id_map (A : Type) (f : A -> bool) l :
  existsb id (map f l) = existsb f l.
Proof. induction l as [| x l IH]; cbn; [| rewrite IH]; reflexivity. Qed.

Lemma select_map (A : Type) (f : A -> bool) (l : list A) :
  np.select (map f l) l = filter f l.
Proof.
  unfold np.select. induction l as [| x l IH]; cbn [map combine filter fst snd].
  - reflexivity.
  - destruct (f x); cbn [map snd]; rewrite IH; reflexivity.
Qed.

(** What the function returns once its input passed the two checks
    and holds at least two vectors. *)
Lemma is_hemispherical_vertices vecs atol :
  shape1 vecs = 3%nat ->
  np.allclose (numpy R) one (np.norm_axis1 (rows vecs)) atol = true ->
  (2 <= length (rows vecs))%nat ->
  is_hemispherical R vecs atol =
  if existsb (is_vertex R vecs) (candidates vecs) then
    Ok (true, normalize_1d R (np.mean_axis0 (filter (is_vertex R vecs) (candidates vecs))))
  else Ok (false, [zero; zero; zero]).
Proof.
  intros H3 Hc HN. rewrite is_hemispherical_checked by assumption.
  unfold candidates.
  destruct (itertools.permutations2 (rows vecs)) as [| p ps] eqn:E.
  - apply permutations2_nil_iff in E. lia.
  - cbv zeta. rewrite normalized_cross_prods_pairs.
    rewrite existsb_len_in, vertex_mask, existsb_id_map, select_map.
    reflexivity.
Qed.

End Vertices.

(** ** The domain of [np.arccos] *)

Section Domain.

Variable R : Runtime.

Lemma arccos_in_domain d :
  arccos R d = if in_domain d then libm_acos R d else nan.
Proof.
  unfold arccos, in_domain.
  destruct (isnan d); [reflexivity |].
  destruct (ltb one (abs d)); reflexivity.
Qed.

Lemma leb_nan_l x : leb nan x = false.
Proof. reflexivity. Qed.

Lemma passes_in_domain c v :
  passes R c v =
  in_domain (dot R c v) && leb (libm_acos R (dot R c v)) (div np.pi two).
Proof.
  unfold passes. rewrite arccos_in_domain.
  destruct (in_domain (dot R c v)); [reflexivity | apply leb_nan_l].
Qed.

Lemma forallb_impl (A : Type) (f g : A -> bool) l :
  (forall x, f x = true -> g x = true) ->
  forallb f l = true -> forallb g l = true.
Proof.
  intros H. rewrite !forallb_forall. auto.
Qed.

Lemma existsb_impl (A : Type) (f g : A -> bool) l :
  (forall x, f x = true -> g x = true) ->
  existsb g l = false -> existsb f l = false.
Proof.
  intros H Hg. destruct (existsb f l) eqn:E; [| reflexivity].
  apply existsb_exists in E. destruct E as (x & Hx & Hf).
  assert (existsb g l = true) by (apply existsb_exists; eauto). congruence.
Qed.

Lemma existsb_forallb_ext_in (A B : Type) (f g : A -> B -> bool) cs vs :
  (forall c v, In c cs -> In v vs -> f c v = g c v) ->
  existsb (fun c => forallb (f c) vs) cs = existsb (fun c => forallb (g c) vs) cs.
Proof.
  intros H. induction cs as [| c cs IH]; cbn [existsb]; [reflexivity |].
  rewrite IH by (intros c' v Hc Hv; apply H; [right |]; assumption).
  f_equal. clear IH.
  assert (Hc : forall v, In v vs -> f c v = g c v)
    by (intros v Hv; apply H; [left; reflexivity | exact Hv]).
  clear H. induction vs as [| v vs IHv]; cbn [forallb]; [reflexivity |].
  rewrite Hc by (left; reflexivity).
  rewrite IHv by (intros w Hw; apply Hc; right; exact Hw). reflexivity.
Qed.

(** No candidate whose dot products all lie in the domain: no vertex. *)
Lemma no_vertex_out_of_domain vecs :
  existsb (fun c => forallb (fun v => in_domain (dot R c v)) (rows vecs))
          (candidates vecs) = false ->
  existsb (is_vertex R vecs) (candidates vecs) = false.
Proof.
  apply existsb_impl. intros c. unfold is_vertex.
  apply forallb_impl. intros v. rewrite passes_in_domain.
  intros H. apply andb_true_iff in H. tauto.
Qed.

End Domain.

(** ** Claims on [is_hemispherical] *)

(** C1 (the code departs from the claim): the scaled frame passes the
    validation and one candidate, the third axis, has a non-negative dot
    product with every input vector, so that the claim's test, in its
    reading "c_k . v_m >= 0", is passed; the function returns false all
    the same, because every candidate has a dot product of magnitude
    1.0005 with one input vector, for which [np.arccos] gives NaN.  This
    holds under both releases of numpy, for every [acos], and for every
    evaluation of the inner product that gives on these rows, which have
    at most one non-zero product, the value every evaluation gives. *)
Lemma C1_scaled_frame_not_hemispherical :
  wf_ndarray scaled_frame /\
  shape1 scaled_frame = 3%nat /\
  (forall ver,
     np.allclose ver one (np.norm_axis1 (rows scaled_frame)) atol_default = true) /\
  In [zero; zero; one] (candidates scaled_frame) /\
  forallb (spec_passes [zero; zero; one]) (rows scaled_frame) = true /\
  spec_is_hemi scaled_frame = true /\
  (forall ver acos,
     is_hemispherical (mk_runtime ver acos np.dot1) scaled_frame atol_default
     = Ok (false, [zero; zero; zero])) /\
  (forall R,
     (forall c v, In c (candidates scaled_frame) -> In v (rows scaled_frame) ->
                  blas_dot R c v = np.dot1 c v) ->
     is_hemispherical R scaled_frame atol_default = Ok (false, [zero; zero; zero])).
Proof.
  assert (Hclose : forall ver,
    np.allclose ver one (np.norm_axis1 (rows scaled_frame)) atol_default = true)
    by (intros []; vm_compute; reflexivity).
  assert (Hgen : forall R,
     (forall c v, In c (candidates scaled_frame) -> In v (rows scaled_frame) ->
                  blas_dot R c v = np.dot1 c v) ->
     is_hemispherical R scaled_frame atol_default = Ok (false, [zero; zero; zero])).
  { intros R H. rewrite is_hemispherical_vertices;
      [| reflexivity | apply Hclose | cbn; lia].
    rewrite no_vertex_out_of_domain; [reflexivity |].
    rewrite (existsb_forallb_ext_in _ _
               (fun c v => in_domain (dot R c v))
               (fun c v => in_domain (dot example_runtime c v))).
    - vm_compute. reflexivity.
    - intros c v Hc Hv. unfold dot. rewrite (H c v Hc Hv). reflexivity. }
  split; [repeat constructor |].
  split; [reflexivity |]. split; [exact Hclose |].
  split; [vm_compute; auto |].
  split; [vm_compute; reflexivity |].
  split; [vm_compute; reflexivity |].
  split; [| exact Hgen].
  intros ver acos. apply Hgen. reflexivity.
Qed.

(** X1: the verdict in terms of the test as the code computes it: for every
    input that passes validation, with at least two vectors, [is_hemi]
    is true iff one of the N*(N-1) candidates, the normalised cross
    products of the ordered pairs of vectors at different positions,
    passes [np.arccos(c . v) <= np.pi / 2] against every input vector;
    the test passes exactly when the dot product is a number of [-1, 1]
    whose inverse cosine is at most pi/2. *)
Theorem is_hemi_iff_candidate_passes_all
    (R : Runtime) (vecs : ndarray) (atol : float) :
  shape1 vecs = 3%nat ->
  np.allclose (numpy R) one (np.norm_axis1 (rows vecs)) atol = true ->
  (2 <= length (rows vecs))%nat ->
  exists is_hemi pole,
    is_hemispherical R vecs atol = Ok (is_hemi, pole) /\
    length (candidates vecs) = (length (rows vecs) * (length (rows vecs) - 1))%nat /\
    (forall c, In c (candidates vecs) <->
       exists i j vi vj,
         i <> j /\ nth_error (rows vecs) i = Some vi /\
         nth_error (rows vecs) j = Some vj /\
         c = np.normalize (np.cross vi vj)) /\
    (is_hemi = true <->
       exists c, In c (candidates vecs) /\
         forall v, In v (rows vecs) ->
           leb (arccos R (dot R c v)) (div np.pi two) = true) /\
    (forall c v,
       leb (arccos R (dot R c v)) (div np.pi two) = true <->
       isnan (dot R c v) = false /\ ltb one (abs (dot R c v)) = false /\
       leb (libm_acos R (dot R c v)) (div np.pi two) = true).
Proof.
  intros H3 Hc HN.
  pose proof (is_hemispherical_vertices R vecs atol H3 Hc HN) as E.
  assert (Hv : existsb (is_vertex R vecs) (candidates vecs) = true <->
               exists c, In c (candidates vecs) /\
                 forall v, In v (rows vecs) -> passes R c v = true).
  { rewrite existsb_exists. unfold is_vertex.
    split; intros (c & Hin & Hall); exists c; split; auto;
      apply forallb_forall; exact Hall. }
  assert (Hcand : forall c, In c (candidates vecs) <->
       exists i j vi vj,
         i <> j /\ nth_error (rows vecs) i = Some vi /\
         nth_error (rows vecs) j = Some vj /\
         c = np.normalize (np.cross vi vj)).
  { intros c. unfold candidates. rewrite in_map_iff. split.
    - intros ([vi vj] & <- & Hin). apply In_permutations2 in Hin.
      destruct Hin as (i & j & Hij & Hi & Hj). exists i, j, vi, vj. auto.
    - intros (i & j & vi & vj & Hij & Hi & Hj & ->). exists (vi, vj).
      split; [reflexivity |]. apply In_permutations2. exists i, j. auto. }
  assert (Hdom : forall c v,
       leb (arccos R (dot R c v)) (div np.pi two) = true <->
       isnan (dot R c v) = false /\ ltb one (abs (dot R c v)) = false /\
       leb (libm_acos R (dot R c v)) (div np.pi two) = true).
  { intros c v. fold (passes R c v). rewrite passes_in_domain.
    unfold in_domain. rewrite !andb_true_iff, !negb_true_iff. tauto. }
  assert (Hlen : length (candidates vecs)
                 = (length (rows vecs) * (length (rows vecs) - 1))%nat).
  { unfold candidates. rewrite length_map. apply length_permutations2. }
  destruct (existsb (is_vertex R vecs) (candidates vecs)) eqn:Ex;
    eexists _, _; (split; [exact E |]); (split; [exact Hlen |]);
    (split; [exact Hcand |]); (split; [| exact Hdom]).
  - split; [intros _; apply Hv; reflexivity | reflexivity].
  - split; [discriminate |]. intros H. apply Hv in H. discriminate.
Qed.

Lemma is_hemi_iff_candidate_passes_all_witness :
  exists is_hemi pole,
    is_hemispherical example_runtime (mk_ndarray 3 [e1; e2; e3]) atol_default
    = Ok (is_hemi, pole) /\ is_hemi = true.
Proof.
  destruct (is_hemi_iff_candidate_passes_all example_runtime
              (mk_ndarray 3 [e1; e2; e3]) atol_default)
    as (b & p & E & _); [reflexivity | vm_compute; reflexivity | cbn; lia |].
  exists b, p. split; [exact E |].
  revert E. vm_compute. intros E. injection E as <- _. reflexivity.
Defined.

(** The mean of rows of three entries, column by column. *)
Lemma mean_axis0_columns (r : list float) (t : list (list float)) :
  Forall (fun v => length v = 3%nat) (r :: t) ->
  np.mean_axis0 (r :: t) =
  map (fun k => div (sum (map (fun v => nth k v zero) (r :: t)))
                    (of_Z (Z.of_nat (length (r :: t)))))
      [0; 1; 2]%nat.
Proof.
  intros Hall. unfold np.mean_axis0. set (n := of_Z _). clearbody n.
  assert (Hs : np.sum_axis0 (r :: t) =
               map (fun k => sum (map (fun v => nth k v zero) (r :: t))) [0; 1; 2]%nat).
  { cbn [np.sum_axis0 sum map].
    inversion Hall as [| ? ? Hr Ht]; subst. clear Hall.
    revert r Hr. induction Ht as [| u t Hu Ht IH]; intros r Hr.
    - destruct r as [| a [| b [| c [| ? ?]]]]; try discriminate. reflexivity.
    - cbn [fold_left map]. rewrite IH.
      + destruct r as [| a [| b [| c [| ? ?]]]]; try discriminate.
        destruct u as [| a' [| b' [| c' [| ? ?]]]]; try discriminate.
        reflexivity.
      + destruct r as [| a [| b [| c [| ? ?]]]]; try discriminate.
        destruct u as [| a' [| b' [| c' [| ? ?]]]]; try discriminate.
        reflexivity. }
  rewrite Hs, map_map. reflexivity.
Qed.

Lemma candidates_length3 (vecs : ndarray) :
  wf_ndarray vecs -> shape1 vecs = 3%nat ->
  Forall (fun c => length c = 3%nat) (candidates vecs).
Proof.
  intros Hwf H3. apply Forall_forall. intros c Hc.
  unfold candidates in Hc. apply in_map_iff in Hc.
  destruct Hc as ([a b] & <- & Hin).
  apply In_permutations2 in Hin. destruct Hin as (i & j & _ & Hi & Hj).
  unfold wf_ndarray in Hwf. rewrite Forall_forall in Hwf.
  pose proof (Hwf a (nth_error_In _ _ Hi)) as Ha.
  pose proof (Hwf b (nth_error_In _ _ Hj)) as Hb.
  rewrite H3 in Ha, Hb.
  destruct a as [| a0 [| a1 [| a2 [| ? ?]]]]; try discriminate.
  destruct b as [| b0 [| b1 [| b2 [| ? ?]]]]; try discriminate.
  reflexivity.
Qed.



(** With two orthogonal vectors both candidates are vertices, their
    mean is the zero vector and the pole is NaN in every coordinate. *)
Example orthogonal_pair_pole_is_nan :
  is_hemispherical example_runtime (mk_ndarray 3 [e1; e2]) atol_default
  = Ok (true, [nan; nan; nan]).
Proof. vm_compute. reflexivity. Qed.

(** ** Claims on the validation *)

(** C3 (as stated, refuted): every norm of [long_pair] is within the
    stated bound of 1 at the default tolerance, and the function raises
    the unit-vector error all the same. *)
Lemma C3_stated_bound_fails :
  wf_ndarray long_pair /\
  shape1 long_pair = 3%nat /\
  forallb (spec_within_bound atol_default) (np.norm_axis1 (rows long_pair)) = true /\
  (forall R,
     is_hemispherical R long_pair atol_default = Raise NotUnitVectorError).
Proof.
  split; [repeat constructor |].
  split; [reflexivity |]. split; [vm_compute; reflexivity |].
  intros R. apply is_hemispherical_not_unit; [reflexivity |].
  destruct (numpy R); vm_compute; reflexivity.
Qed.

(** C3 (amended): on an (N,3) array the function raises the unit-vector
    error exactly when some vector's norm [n] fails numpy's closeness
    test against 1.  The test is passed when [n] is finite and
    [|1 - n| <= atol + 1e-5 * |n|] (numpy's default relative tolerance
    1e-5 applied to the norm, added to [atol]) and, from numpy 2.0 on,
    also when [n == 1]; [atol] defaults to [10e-4], which is 1e-3. *)
Theorem C3_unit_error_iff_not_close
    (R : Runtime) (vecs : ndarray) (atol : float) :
  (is_hemispherical R vecs atol = Raise NotUnitVectorError <->
   shape1 vecs = 3%nat /\
   exists v, In v (rows vecs) /\
     ((isfinite (np.norm v)
       && leb (abs (sub one (np.norm v)))
              (add atol (mul (lit 1 (-5)) (abs (np.norm v)))))
      || match numpy R with
         | np.numpy_1 => false
         | np.numpy_2 => eqb one (np.norm v)
         end) = false) /\
  atol_default = lit 1 (-3).
Proof.
  split; [| vm_compute; reflexivity].
  assert (Hex : np.allclose (numpy R) one (np.norm_axis1 (rows vecs)) atol = false <->
    exists v, In v (rows vecs) /\
     ((isfinite (np.norm v)
       && leb (abs (sub one (np.norm v)))
              (add atol (mul (lit 1 (-5)) (abs (np.norm v)))))
      || match numpy R with
         | np.numpy_1 => false
         | np.numpy_2 => eqb one (np.norm v)
         end) = false).
  { rewrite allclose_false. unfold np.norm_axis1. split.
    - intros (y & Hy & Hc). apply in_map_iff in Hy. destruct Hy as (v & <- & Hv).
      exists v. split; [exact Hv |]. rewrite <- isclose_one. exact Hc.
    - intros (v & Hv & Hc). exists (np.norm v). split; [apply in_map, Hv |].
      rewrite isclose_one. exact Hc. }
  destruct (Nat.eq_dec (shape1 vecs) 3) as [H3 | H3].
  - destruct (np.allclose (numpy R) one (np.norm_axis1 (rows vecs)) atol) eqn:Hc.
    + rewrite is_hemispherical_checked by assumption. split.
      * destruct (itertools.permutations2 (rows vecs)); [discriminate |].
        cbv zeta. match goal with |- context [existsb ?f ?l] =>
          destruct (existsb f l) end; discriminate.
      * intros (_ & H). apply Hex in H. discriminate.
    + rewrite is_hemispherical_not_unit by assumption.
      split; [| reflexivity]. intros _. split; [exact H3 | apply Hex; reflexivity].
  - rewrite is_hemispherical_bad_shape by assumption.
    split; [discriminate | intros (H & _); contradiction].
Qed.

(** C4: the function raises the dimension error iff the second
    dimension of the input array is not 3, whatever its rows and the
    tolerance are: no row is looked at before. *)
Theorem C4_dimension_error_iff_shape1_not_3
    (R : Runtime) (vecs : ndarray) (atol : float) :
  (is_hemispherical R vecs atol = Raise InvalidDimensionError <->
   shape1 vecs <> 3%nat) /\
  (shape1 vecs <> 3%nat ->
   forall rows' atol',
     is_hemispherical R (mk_ndarray (shape1 vecs) rows') atol'
     = Raise InvalidDimensionError).
Proof.
  split.
  - split.
    + intros E H3. destruct (np.allclose (numpy R) one (np.norm_axis1 (rows vecs)) atol) eqn:Hc.
      * rewrite is_hemispherical_checked in E by assumption.
        destruct (itertools.permutations2 (rows vecs)); [discriminate |].
        cbv zeta in E. match type of E with context [existsb ?f ?l] =>
          destruct (existsb f l) end; discriminate.
      * rewrite is_hemispherical_not_unit in E by assumption. discriminate.
    + apply is_hemispherical_bad_shape.
  - intros H rows' atol'. apply is_hemispherical_bad_shape. exact H.
Qed.

(** C9: an input of at most one vector that passes the dimension and
    the unit-norm checks makes the function raise (the unpacking of zero
    pairs fails) instead of returning a result. *)
Theorem C9_at_most_one_vector_raises
    (R : Runtime) (vecs : ndarray) (atol : float) :
  shape1 vecs = 3%nat ->
  np.allclose (numpy R) one (np.norm_axis1 (rows vecs)) atol = true ->
  (length (rows vecs) <= 1)%nat ->
  is_hemispherical R vecs atol
  = Raise (ValueError ["not enough values to unpack (expected 2, got 0)"%string]).
Proof.
  intros H3 Hc HN. rewrite is_hemispherical_checked by assumption.
  apply permutations2_nil_iff in HN. rewrite HN. reflexivity.
Qed.

Lemma C9_witness :
  np.allclose (numpy example_runtime) one (np.norm_axis1 []) atol_default = true /\
  is_hemispherical example_runtime (mk_ndarray 3 []) atol_default
  = Raise (ValueError ["not enough values to unpack (expected 2, got 0)"%string]) /\
  is_hemispherical example_runtime (mk_ndarray 3 [e1]) atol_default
  = Raise (ValueError ["not enough values to unpack (expected 2, got 0)"%string]).
Proof.
  split; [reflexivity |]. split.
  - apply (C9_at_most_one_vector_raises example_runtime (mk_ndarray 3 []) atol_default);
      [reflexivity | reflexivity | cbn; lia].
  - apply (C9_at_most_one_vector_raises example_runtime (mk_ndarray 3 [e1]) atol_default);
      [reflexivity | vm_compute; reflexivity | cbn; lia].
Defined.

(** ** Antipodal pairs (C5) *)

Section Antipodal.

Lemma mul_opp_r_swap x y : mul x (opp y) = mul y (opp x).
Proof.
  destruct x as [sx | sx | | sx mx ex], y as [sy | sy | | sy my ey];
    cbn; try reflexivity;
    try (destruct sx, sy; reflexivity).
  unfold mul, SFmul, opp, SFopp.
  rewrite (Pos.mul_comm my mx), (Z.add_comm ey ex).
  destruct sx, sy; reflexivity.
Qed.

Lemma mul_opp_l_swap x y : mul (opp x) y = mul (opp y) x.
Proof.
  destruct x as [sx | sx | | sx mx ex], y as [sy | sy | | sy my ey];
    cbn; try reflexivity;
    try (destruct sx, sy; reflexivity).
  unfold mul, SFmul, opp, SFopp.
  rewrite (Pos.mul_comm my mx), (Z.add_comm ey ex).
  destruct sx, sy; reflexivity.
Qed.

Lemma sub_diag_degenerate p : degenerate (sub p p) = true.
Proof.
  destruct p as [s | s | | s m e].
  - destruct s; reflexivity.
  - destruct s; reflexivity.
  - reflexivity.
  - unfold sub, SFsub. rewrite Z.sub_diag. reflexivity.
Qed.

Lemma cross_antipode_degenerate x y z :
  Forall (fun d => degenerate d = true)
         (np.cross [x; y; z] [opp x; opp y; opp z]) /\
  Forall (fun d => degenerate d = true)
         (np.cross [opp x; opp y; opp z] [x; y; z]).
Proof.
  cbn [np.cross]. split; repeat constructor.
  - rewrite (mul_opp_r_swap y z). apply sub_diag_degenerate.
  - rewrite (mul_opp_r_swap z x). apply sub_diag_degenerate.
  - rewrite (mul_opp_r_swap x y). apply sub_diag_degenerate.
  - rewrite (mul_opp_l_swap y z). apply sub_diag_degenerate.
  - rewrite (mul_opp_l_swap z x). apply sub_diag_degenerate.
  - rewrite (mul_opp_l_swap x y). apply sub_diag_degenerate.
Qed.

(** Normalising a degenerate vector divides zero or NaN by zero or
    NaN. *)
Lemma normalize_degenerate (c : list float) :
  length c = 3%nat ->
  Forall (fun d => degenerate d = true) c ->
  np.normalize c = [nan; nan; nan].
Proof.
  intros Hl Hd.
  destruct c as [| d0 [| d1 [| d2 [| ? ?]]]]; try discriminate Hl.
  inversion Hd as [| ? ? H0 Hd1]; subst.
  inversion Hd1 as [| ? ? H1 Hd2]; subst.
  inversion Hd2 as [| ? ? H2 _]; subst.
  destruct d0 as [[] | | |], d1 as [[] | | |], d2 as [[] | | |];
    try discriminate; reflexivity.
Qed.

Lemma length_cross3 a0 a1 a2 b0 b1 b2 :
  length (np.cross [a0; a1; a2] [b0; b1; b2]) = 3%nat.
Proof. reflexivity. Qed.

Lemma passes_nan (R : Runtime) a b c :
  passes R [nan; nan; nan] [a; b; c] = false.
Proof. reflexivity. Qed.

End Antipodal.

(** C5: for a vector [v] and its antipode, passed together as a
    validated two-vector input, the function returns [is_hemi = false]
    and the zero vector as pole. *)
Theorem C5_antipodal_pair_not_hemispherical
    (R : Runtime) (x y z atol : float) :
  let vecs := mk_ndarray 3 [[x; y; z]; [opp x; opp y; opp z]] in
  np.allclose (numpy R) one (np.norm_axis1 (rows vecs)) atol = true ->
  is_hemispherical R vecs atol = Ok (false, [zero; zero; zero]).
Proof.
  intros vecs Hc.
  rewrite is_hemispherical_vertices; [| reflexivity | exact Hc | cbn; lia].
  destruct (cross_antipode_degenerate x y z) as [H1 H2].
  unfold candidates, candidate. cbn [rows vecs itertools.permutations2
    itertools.permutations2_from app map fst snd].
  rewrite !normalize_degenerate by (auto using length_cross3).
  reflexivity.
Qed.

Lemma C5_witness :
  np.allclose (numpy example_runtime) one
    (np.norm_axis1 [[one; zero; zero]; [opp one; opp zero; opp zero]])
    atol_default = true /\
  is_hemispherical example_runtime
    (mk_ndarray 3 [[one; zero; zero]; [opp one; opp zero; opp zero]]) atol_default
  = Ok (false, [zero; zero; zero]).
Proof.
  assert (H : np.allclose (numpy example_runtime) one
                (np.norm_axis1 [[one; zero; zero]; [opp one; opp zero; opp zero]])
                atol_default = true) by (vm_compute; reflexivity).
  split; [exact H |].
  apply (C5_antipodal_pair_not_hemispherical example_runtime one zero zero atol_default H).
Defined.

(** ** Reordering the input (C6) *)

Section Reordering.

Lemma forallb_Permutation (A : Type) (f : A -> bool) l l' :
  Permutation l l' -> forallb f l = forallb f l'.
Proof.
  induction 1 as [| x l l' _ IH | x y l | l l' l'' _ IH1 _ IH2]; cbn.
  - reflexivity.
  - rewrite IH. reflexivity.
  - destruct (f x), (f y); reflexivity.
  - congruence.
Qed.

Lemma existsb_Permutation (A : Type) (f : A -> bool) l l' :
  Permutation l l' -> existsb f l = existsb f l'.
Proof.
  induction 1 as [| x l l' _ IH | x y l | l l' l'' _ IH1 _ IH2]; cbn.
  - reflexivity.
  - rewrite IH. reflexivity.
  - destruct (f x), (f y); reflexivity.
  - congruence.
Qed.

Lemma candidates_Permutation vecs vecs' :
  Permutation (rows vecs) (rows vecs') ->
  Permutation (candidates vecs) (candidates vecs').
Proof.
  intros H. unfold candidates. apply Permutation_map, permutations2_Permutation, H.
Qed.

Lemma existsb_ext_in (A : Type) (f g : A -> bool) l :
  (forall x, f x = g x) -> existsb f l = existsb g l.
Proof.
  intros H. induction l as [| x l IH]; cbn; [| rewrite H, IH]; reflexivity.
Qed.

End Reordering.

(** C6: the boolean returned for an input and for any reordering of its
    vectors is the same (and so is the exception, when one is raised). *)
Theorem C6_is_hemi_permutation_invariant
    (R : Runtime) (vecs vecs' : ndarray) (atol : float) :
  shape1 vecs = shape1 vecs' ->
  Permutation (rows vecs) (rows vecs') ->
  is_hemi_of (is_hemispherical R vecs atol)
  = is_hemi_of (is_hemispherical R vecs' atol).
Proof.
  intros Hs Hp.
  destruct (Nat.eq_dec (shape1 vecs) 3) as [H3 | H3].
  - assert (H3' : shape1 vecs' = 3%nat) by congruence.
    assert (Hc : np.allclose (numpy R) one (np.norm_axis1 (rows vecs)) atol
                 = np.allclose (numpy R) one (np.norm_axis1 (rows vecs')) atol).
    { unfold np.allclose, np.norm_axis1.
      apply forallb_Permutation, Permutation_map, Hp. }
    destruct (np.allclose (numpy R) one (np.norm_axis1 (rows vecs)) atol) eqn:E.
    + symmetry in Hc. pose proof (Permutation_length Hp) as Hl.
      destruct (le_lt_dec (length (rows vecs)) 1) as [Hle | Hgt].
      * rewrite !is_hemispherical_checked by assumption.
        assert (Hle' : (length (rows vecs') <= 1)%nat) by lia.
        apply permutations2_nil_iff in Hle, Hle'. rewrite Hle, Hle'. reflexivity.
      * rewrite !is_hemispherical_vertices by (assumption || lia).
        rewrite (existsb_Permutation _ _ _ _ (candidates_Permutation _ _ Hp)).
        rewrite (existsb_ext_in _ (is_vertex R vecs) (is_vertex R vecs')).
        -- destruct (existsb (is_vertex R vecs') (candidates vecs')); reflexivity.
        -- intros c. unfold is_vertex. apply forallb_Permutation, Hp.
    + symmetry in Hc. rewrite !is_hemispherical_not_unit by assumption. reflexivity.
  - rewrite !is_hemispherical_bad_shape by congruence. reflexivity.
Qed.

Lemma C6_witness :
  is_hemi_of (is_hemispherical example_runtime (mk_ndarray 3 [e1; e2; e3]) atol_default)
  = is_hemi_of (is_hemispherical example_runtime (mk_ndarray 3 [e3; e1; e2]) atol_default).
Proof.
  apply (C6_is_hemi_permutation_invariant example_runtime
           (mk_ndarray 3 [e1; e2; e3]) (mk_ndarray 3 [e3; e1; e2]) atol_default).
  - reflexivity.
  - cbn [rows]. apply Permutation_sym.
    change [e3; e1; e2] with ([e3] ++ [e1; e2]).
    change [e1; e2; e3] with ([e1; e2] ++ [e3]).
    apply Permutation_app_comm.
Defined.

(** ** Claims on [is_bval_bvec_hemispherical] *)

Lemma non_b0_bvecs_rows (gtab : GradientTable) (vecs : ndarray) :
  non_b0_bvecs gtab = Ok vecs ->
  shape1 vecs = shape1 (bvecs gtab) /\
  rows vecs = map snd (filter (fun p => negb (fst p))
                              (combine (b0s_mask gtab) (rows (bvecs gtab)))).
Proof.
  unfold non_b0_bvecs.
  destruct (length (b0s_mask gtab) =? length (rows (bvecs gtab)))%nat; [| discriminate].
  intros [= <-]. split; [reflexivity |]. cbn [rows]. unfold np.select.
  generalize (rows (bvecs gtab)). induction (b0s_mask gtab) as [| b m IH]; intros l.
  - reflexivity.
  - destruct l as [| r l]; [reflexivity |]. cbn [map combine filter fst snd].
    destruct b; cbn [negb map snd]; rewrite IH; reflexivity.
Qed.

(** C7 (as stated, refuted): with no table and only a b-value path the
    combination is neither "a table and file paths" nor "nothing
    supplied", and yet the call raises instead of delegating. *)
Lemma C7_single_path_not_delegated :
  spec_invalid_combination (@None GradientTable) (Some "dwi.bval"%string) None = false /\
  is_bval_bvec_hemispherical example_runtime example_gradient_table
    None (Some "dwi.bval"%string) None atol_default
  = Raise MissingInputError.
Proof. split; reflexivity. Qed.

(** C7 (amended): the entry point raises a [ValueError] when a gradient
    table is supplied together with at least one file path, and when no
    table is supplied and at least one of the two paths is missing; with
    a table alone, or with the two paths alone (the table then being
    loaded from them), it returns what [is_hemispherical] returns on the
    b-vectors whose b0 mask entry is false. *)
Theorem C7_argument_combinations
    (R : Runtime)
    (gradient_table : string -> string -> result GradientTable)
    (gtab : option GradientTable) (bval_file bvec_file : option string)
    (atol : float) :
  let call := is_bval_bvec_hemispherical R gradient_table
                gtab bval_file bvec_file atol in
  let delegate (g : GradientTable) :=
    vecs <- non_b0_bvecs g ;; is_hemispherical R vecs atol in
  match gtab, bval_file, bvec_file with
  | Some g, None, None => call = delegate g
  | Some _, _, _ => call = Raise BothInputsError
  | None, Some bval, Some bvec =>
      call = (g <- gradient_table bval bvec ;; delegate g)
  | None, _, _ => call = Raise MissingInputError
  end.
Proof.
  destruct gtab as [g |], bval_file as [bval |], bvec_file as [bvec |];
    reflexivity.
Qed.

(** C10: the entry point also raises when exactly one of the two file
    paths is supplied, with or without a gradient table. *)
Theorem C10_single_path_raises
    (R : Runtime)
    (gradient_table : string -> string -> result GradientTable)
    (g : GradientTable) (path : string) (atol : float) :
  let f := is_bval_bvec_hemispherical R gradient_table in
  f None (Some path) None atol = Raise MissingInputError /\
  f None None (Some path) atol = Raise MissingInputError /\
  f (Some g) (Some path) None atol = Raise BothInputsError /\
  f (Some g) None (Some path) atol = Raise BothInputsError.
Proof. repeat split. Qed.

Example entry_point_delegates :
  is_bval_bvec_hemispherical example_runtime example_gradient_table
    (Some example_gtab) None None atol_default
  = is_hemispherical example_runtime (mk_ndarray 3 [e1; e2; e3]) atol_default /\
  is_bval_bvec_hemispherical example_runtime example_gradient_table
    None (Some "dwi.bval"%string) (Some "dwi.bvec"%string) atol_default
  = is_hemispherical example_runtime (mk_ndarray 3 [e1; e2; e3]) atol_default.
Proof. split; reflexivity. Qed.

Section ProcedureRuns.

Import Store.

Variable R : Runtime.

Lemma update_app_length (A : Type) (h : list A) (o o' : A) :
  update (length h) o' (h ++ [o]) = h ++ [o'].
Proof. induction h as [| x h IH]; cbn; [| rewrite IH]; reflexivity. Qed.

Lemma nth_app_length (A : Type) (h t : list A) (o d : A) :
  nth (length h) (h ++ o :: t) d = o.
Proof. induction h as [| x h IH]; cbn; auto. Qed.

(** A call only appends to the heap, leaves the logger alone, and the
    result read back from the store is the value of the function on
    the contents of its argument. *)
Lemma is_hemispherical_st_run vecs a atol s :
  nth_error (heap s) vecs = Some (A2 a) ->
  exists r ext,
    is_hemispherical_st R vecs atol s
    = (r, mk_state (heap s ++ ext) (mod_logger s)) /\
    observe (r, mk_state (heap s ++ ext) (mod_logger s))
    = is_hemispherical R a atol.
Proof.
  intros Hv. destruct s as [h lg]. cbn [heap mod_logger] in *.
  assert (Hget : forall t, nth vecs (h ++ t) (A1 []) = A2 a).
  { intros t. apply nth_error_nth. rewrite nth_error_app1; [exact Hv |].
    apply nth_error_Some. congruence. }
  pose proof (Hget []) as Hget0. rewrite app_nil_r in Hget0.
  unfold is_hemispherical_st, is_hemispherical.
  unfold bindM at 1. unfold get at 1. cbn [heap]. rewrite Hget0. cbn [as_2d].
  destruct (negb (shape1 a =? 3)%nat).
  { exists (Raise InvalidDimensionError), []. rewrite app_nil_r. split; reflexivity. }
  destruct (negb (np.allclose (numpy R) one (np.norm_axis1 (rows a)) atol)).
  { exists (Raise NotUnitVectorError), []. rewrite app_nil_r. split; reflexivity. }
  destruct (itertools.permutations2 (rows a)) as [| p ps].
  { eexists _, []. rewrite app_nil_r. split; reflexivity. }
  rewrite unpack2_zip_star_cons.
  unfold bindM, lift, new, get, put, raise, ret. cbn [heap mod_logger fst snd bind].
  rewrite nth_app_length, update_app_length, nth_app_length, Hget. cbn [as_2d rows].
  fold (normalized_cross_prods (map fst (p :: ps)) (map snd (p :: ps))).
  set (cp := normalized_cross_prods (map fst (p :: ps)) (map snd (p :: ps))).
  match goal with |- context [existsb ?f ?l] => destruct (existsb f l) end;
    cbn [heap mod_logger].
  - rewrite nth_app_length, update_app_length. cbn [as_1d].
    rewrite <- app_assoc. cbn [app]. eexists _, [_; _]. split; [reflexivity |].
    unfold observe. cbn [fst snd bind heap].
    change (h ++ [A2 (mk_ndarray 3 cp); ?x]) with (h ++ [A2 (mk_ndarray 3 cp)] ++ [x]).
    rewrite app_assoc, nth_app_length. reflexivity.
  - rewrite <- app_assoc. cbn [app]. eexists _, [_; _]. split; [reflexivity |].
    unfold observe. cbn [fst snd bind heap].
    change (h ++ [A2 (mk_ndarray 3 cp); ?x]) with (h ++ [A2 (mk_ndarray 3 cp)] ++ [x]).
    rewrite app_assoc, nth_app_length. reflexivity.
Qed.

End ProcedureRuns.

(** C8: the function is deterministic and keeps no state: from any two
    stores that hold the same input array, and with the same tolerance,
    two calls return the same boolean and the same pole; a second call
    made in the store left by the first one returns this result again;
    and a call changes no array that existed before it, nor the module's
    logger. *)
Theorem C8_deterministic_and_stateless
    (R : Runtime) (a : ndarray) (atol : float)
    (s s' : Store.state) (vecs vecs' : Store.ref) :
  nth_error (Store.heap s) vecs = Some (Store.A2 a) ->
  nth_error (Store.heap s') vecs' = Some (Store.A2 a) ->
  let out := is_hemispherical_st R vecs atol s in
  let out' := is_hemispherical_st R vecs' atol s' in
  let again := is_hemispherical_st R vecs atol (snd out) in
  observe out = observe out' /\
  observe again = observe out /\
  observe out = is_hemispherical R a atol /\
  (forall r o, nth_error (Store.heap s) r = Some o ->
               nth_error (Store.heap (snd out)) r = Some o) /\
  Store.mod_logger (snd out) = Store.mod_logger s.
Proof.
  intros Hv Hv' out out' again.
  destruct (is_hemispherical_st_run R vecs a atol s Hv) as (r & ext & E & O).
  destruct (is_hemispherical_st_run R vecs' a atol s' Hv') as (r' & ext' & E' & O').
  assert (Hkeep : forall k o, nth_error (Store.heap s) k = Some o ->
                  nth_error (Store.heap (snd out)) k = Some o).
  { intros k o Hk. subst out. rewrite E. cbn [snd Store.heap].
    rewrite nth_error_app1; [exact Hk |]. apply nth_error_Some. congruence. }
  destruct (is_hemispherical_st_run R vecs a atol (snd out) (Hkeep _ _ Hv))
    as (r2 & ext2 & E2 & O2).
  subst out out' again. rewrite E2, O2. rewrite E' , O'. rewrite E in *. rewrite O.
  repeat split; auto.
Qed.

Lemma C8_witness :
  let s := Store.mk_state [Store.A2 (mk_ndarray 3 [e1; e2; e3])] [] in
  let out := is_hemispherical_st example_runtime 0%nat atol_default s in
  observe (is_hemispherical_st example_runtime 0%nat atol_default (snd out)) = observe out.
Proof.
  intros s out.
  apply (C8_deterministic_and_stateless example_runtime (mk_ndarray 3 [e1; e2; e3])
           atol_default s s 0%nat 0%nat); reflexivity.
Defined.

(** ** Further properties of [is_hemispherical] *)

Section Outcomes.

Variable R : Runtime.

(** The four outcomes of a call, by the three tests made in order. *)
Lemma is_hemispherical_outcome vecs atol :
  (shape1 vecs <> 3%nat /\
   is_hemispherical R vecs atol = Raise InvalidDimensionError) \/
  (shape1 vecs = 3%nat /\
   np.allclose (numpy R) one (np.norm_axis1 (rows vecs)) atol = false /\
   is_hemispherical R vecs atol = Raise NotUnitVectorError) \/
  (shape1 vecs = 3%nat /\
   np.allclose (numpy R) one (np.norm_axis1 (rows vecs)) atol = true /\
   (length (rows vecs) <= 1)%nat /\
   is_hemispherical R vecs atol = Raise (UnpackError "0")) \/
  (shape1 vecs = 3%nat /\
   np.allclose (numpy R) one (np.norm_axis1 (rows vecs)) atol = true /\
   (2 <= length (rows vecs))%nat /\
   exists is_hemi pole, is_hemispherical R vecs atol = Ok (is_hemi, pole)).
Proof.
  destruct (Nat.eq_dec (shape1 vecs) 3) as [H3 | H3].
  - right. destruct (np.allclose (numpy R) one (np.norm_axis1 (rows vecs)) atol) eqn:Hc.
    + right. destruct (le_lt_dec (length (rows vecs)) 1) as [Hle | Hgt].
      * left. repeat split; auto.
        rewrite is_hemispherical_checked by assumption.
        apply permutations2_nil_iff in Hle. rewrite Hle. reflexivity.
      * right. repeat split; auto.
        rewrite is_hemispherical_vertices by (assumption || lia).
        destruct (existsb _ _); eauto.
    + left. auto using is_hemispherical_not_unit.
  - left. auto using is_hemispherical_bad_shape.
Qed.

Lemma leb_nan_r x : leb x nan = false.
Proof. destruct x as [s | s | | s m e]; reflexivity. Qed.

Lemma existsb_all_false (A : Type) (f : A -> bool) l :
  (forall x, In x l -> f x = false) -> existsb f l = false.
Proof.
  intros H. induction l as [| x l IH]; cbn; [reflexivity |].
  rewrite H by (left; reflexivity). apply IH. intros y Hy. apply H. right. exact Hy.
Qed.

End Outcomes.

(** X2: on a [float64] array the function returns a pair exactly when
    the array has three columns, every norm passes [np.allclose] against
    1 (as the installed numpy computes it) and there are at least two
    vectors; in every other case it raises. *)
Theorem returns_iff_validated
    (R : Runtime) (vecs : ndarray) (atol : float) :
  (exists is_hemi pole, is_hemispherical R vecs atol = Ok (is_hemi, pole)) <->
  shape1 vecs = 3%nat /\
  np.allclose (numpy R) one (np.norm_axis1 (rows vecs)) atol = true /\
  (2 <= length (rows vecs))%nat.
Proof.
  destruct (is_hemispherical_outcome R vecs atol)
    as [(H3 & E) | [(H3 & Hc & E) | [(H3 & Hc & HN & E) | (H3 & Hc & HN & E)]]].
  - rewrite E. split; [intros (b & p & H); discriminate | intros (H & _); contradiction].
  - rewrite E. split; [intros (b & p & H); discriminate |].
    intros (_ & H & _). congruence.
  - rewrite E. split; [intros (b & p & H); discriminate |].
    intros (_ & _ & H). lia.
  - split; auto.
Qed.

(** X3: on a [float64] array the only exceptions of the function are
    its three [ValueError]s, and the unpacking error is raised exactly
    for an (N,3) array of at most one vector that passes the norm check
    (as the installed numpy computes it). *)
Theorem exceptions_are_three_value_errors
    (R : Runtime) (vecs : ndarray) (atol : float) :
  (forall e, is_hemispherical R vecs atol = Raise e ->
     e = InvalidDimensionError \/ e = NotUnitVectorError \/
     e = ValueError ["not enough values to unpack (expected 2, got 0)"%string]) /\
  (is_hemispherical R vecs atol
   = Raise (ValueError ["not enough values to unpack (expected 2, got 0)"%string]) <->
   shape1 vecs = 3%nat /\
   np.allclose (numpy R) one (np.norm_axis1 (rows vecs)) atol = true /\
   (length (rows vecs) <= 1)%nat).
Proof.
  destruct (is_hemispherical_outcome R vecs atol)
    as [(H3 & E) | [(H3 & Hc & E) | [(H3 & Hc & HN & E) | (H3 & Hc & HN & b & p & E)]]];
    rewrite E; split.
  - intros e [= <-]. auto.
  - split; [discriminate | intros (H & _); contradiction].
  - intros e [= <-]. auto.
  - split; [discriminate | intros (_ & H & _); congruence].
  - intros e [= <-]. auto.
  - split; auto.
  - intros e H. discriminate.
  - split; [discriminate | intros (_ & _ & H); lia].
Qed.

(** X4: the tolerance only decides whether the input is accepted: two
    tolerances that both accept the input give the same result. *)
Theorem tolerance_only_gates
    (R : Runtime) (vecs : ndarray) (atol atol' : float) :
  np.allclose (numpy R) one (np.norm_axis1 (rows vecs)) atol = true ->
  np.allclose (numpy R) one (np.norm_axis1 (rows vecs)) atol' = true ->
  is_hemispherical R vecs atol = is_hemispherical R vecs atol'.
Proof.
  intros Hc Hc'. destruct (Nat.eq_dec (shape1 vecs) 3) as [H3 | H3].
  - rewrite !is_hemispherical_checked by assumption. reflexivity.
  - rewrite !is_hemispherical_bad_shape by assumption. reflexivity.
Qed.

Lemma tolerance_only_gates_witness :
  is_hemispherical example_runtime (mk_ndarray 3 [e1; e2; e3]) atol_default
  = is_hemispherical example_runtime (mk_ndarray 3 [e1; e2; e3]) (lit 5 (-1)).
Proof.
  apply (tolerance_only_gates example_runtime (mk_ndarray 3 [e1; e2; e3])
           atol_default (lit 5 (-1))); vm_compute; reflexivity.
Defined.

(** X8: with a NaN tolerance the tolerance test never passes.  Before
    numpy 2.0 every non-empty (N,3) input is then rejected with the
    unit-vector error; from 2.0 on the input is rejected exactly when
    some norm is not equal to 1. *)
Theorem nan_tolerance_rejects
    (R : Runtime) (vecs : ndarray) :
  shape1 vecs = 3%nat ->
  (is_hemispherical R vecs nan = Raise NotUnitVectorError <->
   exists v, In v (rows vecs) /\
     match numpy R with
     | np.numpy_1 => True
     | np.numpy_2 => eqb one (np.norm v) = false
     end).
Proof.
  intros H3.
  assert (Hclose : forall n,
    np.isclose (numpy R) one n np.rtol_default nan
    = match numpy R with np.numpy_1 => false | np.numpy_2 => eqb one n end).
  { intros n. rewrite isclose_one.
    replace (add nan (mul np.rtol_default (abs n))) with nan by reflexivity.
    rewrite leb_nan_r, andb_false_r. reflexivity. }
  assert (Hex : np.allclose (numpy R) one (np.norm_axis1 (rows vecs)) nan = false <->
    exists v, In v (rows vecs) /\
      match numpy R with
      | np.numpy_1 => True
      | np.numpy_2 => eqb one (np.norm v) = false
      end).
  { rewrite allclose_false. unfold np.norm_axis1. split.
    - intros (y & Hy & Hc). apply in_map_iff in Hy. destruct Hy as (v & <- & Hv).
      exists v. split; [exact Hv |]. rewrite Hclose in Hc.
      destruct (numpy R); [exact I | exact Hc].
    - intros (v & Hv & Hc). exists (np.norm v). split; [apply in_map, Hv |].
      rewrite Hclose. destruct (numpy R); [reflexivity | exact Hc]. }
  rewrite <- Hex.
  destruct (is_hemispherical_outcome R vecs nan)
    as [(H & E) | [(_ & Hc & E) | [(_ & Hc & _ & E) | (_ & Hc & _ & b & p & E)]]];
    rewrite E.
  - contradiction.
  - rewrite Hc. split; reflexivity.
  - rewrite Hc. split; discriminate.
  - rewrite Hc. split; discriminate.
Qed.

Lemma nan_tolerance_rejects_witness :
  is_hemispherical example_runtime scaled_frame nan = Raise NotUnitVectorError /\
  is_hemispherical (mk_runtime np.numpy_1 acos_chord np.dot1)
                   (mk_ndarray 3 [e1; e2; e3]) nan
  = Raise NotUnitVectorError /\
  exists pole,
    is_hemispherical example_runtime (mk_ndarray 3 [e1; e2; e3]) nan = Ok (true, pole).
Proof.
  split; [| split].
  - apply (nan_tolerance_rejects example_runtime scaled_frame); [reflexivity |].
    exists [lit 10005 (-4); zero; zero]. split; [left; reflexivity |].
    vm_compute. reflexivity.
  - apply (nan_tolerance_rejects (mk_runtime np.numpy_1 acos_chord np.dot1)
             (mk_ndarray 3 [e1; e2; e3])); [reflexivity |].
    exists e1. split; [left; reflexivity | exact I].
  - eexists. vm_compute. reflexivity.
Defined.

(** ** Inputs the norm check rejects *)

Section NormClasses.

Lemma binary_round_aux_nonneg m e l :
  nonneg_or_nan (binary_round_aux prec emax false m e l) = true.
Proof.
  unfold binary_round_aux.
  destruct (shr_fexp prec emax m e l) as [mrs' e'].
  destruct (shr_fexp prec emax _ e' loc_Exact) as [mrs'' e''].
  destruct (shr_m mrs''); [reflexivity | | reflexivity].
  destruct (Z.leb e'' (Z.sub emax prec)); reflexivity.
Qed.

Lemma mul_self_nonneg x : nonneg_or_nan (mul x x) = true.
Proof.
  destruct x as [s | s | | s m e]; try (destruct s; reflexivity); [reflexivity |].
  unfold mul, SFmul. replace (xorb s s) with false by (destruct s; reflexivity).
  apply binary_round_aux_nonneg.
Qed.

Lemma mul_self_not_finite x :
  isfinite x = false -> inf_or_nan (mul x x) = true.
Proof.
  destruct x as [s | s | | s m e]; try discriminate; intros _;
    [destruct s |]; reflexivity.
Qed.

Lemma add_nonneg a b :
  nonneg_or_nan a = true -> nonneg_or_nan b = true ->
  nonneg_or_nan (add a b) = true.
Proof.
  destruct a as [[] | [] | | [] ma ea]; try discriminate;
    destruct b as [[] | [] | | [] mb eb]; try discriminate; intros _ _;
    try reflexivity.
  unfold add, SFadd, cond_Zopp. cbn [Z.add].
  unfold binary_normalize, binary_round.
  destruct (shl_align _ _ _) as [mz ez]. apply binary_round_aux_nonneg.
Qed.

Lemma add_inf_or_nan_l a b :
  inf_or_nan a = true -> nonneg_or_nan b = true -> inf_or_nan (add a b) = true.
Proof.
  destruct a as [[] | [] | | [] ma ea]; try discriminate;
    destruct b as [[] | [] | | [] mb eb]; try discriminate; reflexivity.
Qed.

Lemma add_inf_or_nan_r a b :
  nonneg_or_nan a = true -> inf_or_nan b = true -> inf_or_nan (add a b) = true.
Proof.
  destruct a as [[] | [] | | [] ma ea]; try discriminate;
    destruct b as [[] | [] | | [] mb eb]; try discriminate; reflexivity.
Qed.

Lemma inf_or_nan_nonneg a : inf_or_nan a = true -> nonneg_or_nan a = true.
Proof. destruct a as [[] | [] | | [] ma ea]; try discriminate; reflexivity. Qed.

Lemma fold_add_nonneg (t : list float) (a : float) :
  nonneg_or_nan a = true ->
  Forall (fun y => nonneg_or_nan y = true) t ->
  nonneg_or_nan (fold_left add t a) = true.
Proof.
  intros Ha Ht. revert a Ha. induction Ht as [| y t Hy _ IH]; intros a Ha; cbn.
  - exact Ha.
  - apply IH, add_nonneg; assumption.
Qed.

Lemma fold_add_inf_or_nan_acc (t : list float) (a : float) :
  inf_or_nan a = true ->
  Forall (fun y => nonneg_or_nan y = true) t ->
  inf_or_nan (fold_left add t a) = true.
Proof.
  intros Ha Ht. revert a Ha. induction Ht as [| y t Hy _ IH]; intros a Ha; cbn.
  - exact Ha.
  - apply IH, add_inf_or_nan_l; assumption.
Qed.

Lemma fold_add_inf_or_nan_term (t : list float) (a : float) :
  nonneg_or_nan a = true ->
  Forall (fun y => nonneg_or_nan y = true) t ->
  Exists (fun y => inf_or_nan y = true) t ->
  inf_or_nan (fold_left add t a) = true.
Proof.
  intros Ha Ht Hex. revert a Ha Ht.
  induction Hex as [y t Hy | y t _ IH]; intros a Ha Ht;
    inversion Ht as [| ? ? Hy' Ht']; subst; cbn.
  - apply fold_add_inf_or_nan_acc; [| exact Ht'].
    apply add_inf_or_nan_r; assumption.
  - apply IH; [apply add_nonneg |]; assumption.
Qed.

(** The sum of the squares of a row with an entry that is not finite. *)
Lemma sum_squares_not_finite (v : list float) :
  Exists (fun x => isfinite x = false) v ->
  inf_or_nan (sum (map (fun x => mul x x) v)) = true.
Proof.
  intros Hex.
  assert (Hall : forall l, Forall (fun y => nonneg_or_nan y = true)
                                  (map (fun x => mul x x) l)).
  { intros l. apply Forall_forall. intros y Hy. apply in_map_iff in Hy.
    destruct Hy as (x & <- & _). apply mul_self_nonneg. }
  destruct v as [| x t]; [inversion Hex |]. cbn [map sum].
  inversion Hex as [? ? Hx | ? ? Ht]; subst.
  - apply fold_add_inf_or_nan_acc; [apply mul_self_not_finite, Hx | apply Hall].
  - apply fold_add_inf_or_nan_term; [apply mul_self_nonneg | apply Hall |].
    apply Exists_exists in Ht. destruct Ht as (y & Hy & Hf).
    apply Exists_exists. exists (mul y y).
    split; [exact (in_map (fun z => mul z z) t y Hy) |].
    apply mul_self_not_finite, Hf.
Qed.

Lemma norm_not_finite (v : list float) :
  Exists (fun x => isfinite x = false) v -> isfinite (np.norm v) = false.
Proof.
  intros H. apply sum_squares_not_finite in H. unfold np.norm.
  destruct (sum _) as [[] | [] | | [] m e]; try discriminate; reflexivity.
Qed.

Lemma eqb_one_not_finite n : isfinite n = false -> eqb one n = false.
Proof.
  replace one with (S754_finite false 4503599627370496 (-52))
    by (vm_compute; reflexivity).
  destruct n as [s | s | | s m e]; try discriminate; intros _;
    [destruct s |]; reflexivity.
Qed.

Lemma allclose_rejects_row ver x (v : list float) (a : list (list float)) atol :
  In v a ->
  np.isclose ver x (np.norm v) np.rtol_default atol = false ->
  np.allclose ver x (np.norm_axis1 a) atol = false.
Proof.
  intros Hin Hc. apply allclose_false. exists (np.norm v).
  split; [apply in_map, Hin | exact Hc].
Qed.

End NormClasses.

(** X6: an (N,3) input with a NaN or an infinite entry in some vector is
    rejected with the unit-vector error, whatever the tolerance. *)
Theorem non_finite_entry_rejected
    (R : Runtime) (vecs : ndarray) (atol : float)
    (v : list float) (x : float) :
  shape1 vecs = 3%nat ->
  In v (rows vecs) -> In x v -> isfinite x = false ->
  is_hemispherical R vecs atol = Raise NotUnitVectorError.
Proof.
  intros H3 Hv Hx Hf. apply is_hemispherical_not_unit; [exact H3 |].
  apply (allclose_rejects_row _ one v); [exact Hv |].
  assert (Hn : isfinite (np.norm v) = false)
    by (apply norm_not_finite, Exists_exists; eauto).
  rewrite isclose_one, Hn, (eqb_one_not_finite _ Hn).
  destruct (numpy R); reflexivity.
Qed.

Lemma non_finite_entry_rejected_witness :
  is_hemispherical example_runtime (mk_ndarray 3 [e1; [zero; nan; one]]) (S754_infinity false)
  = Raise NotUnitVectorError.
Proof.
  apply (non_finite_entry_rejected example_runtime (mk_ndarray 3 [e1; [zero; nan; one]])
           (S754_infinity false) [zero; nan; one] nan);
    [reflexivity | cbn; auto | cbn; auto | reflexivity].
Defined.

(** The norm check on rows that hold the zero vector. *)
Lemma allclose_zero_row (R : Runtime) (a : list (list float)) (atol : float)
    (s0 s1 s2 : bool) :
  In [S754_zero s0; S754_zero s1; S754_zero s2] a ->
  leb one atol = false ->
  np.allclose (numpy R) one (np.norm_axis1 a) atol = false.
Proof.
  intros Hv Ha.
  apply (allclose_rejects_row _ one [S754_zero s0; S754_zero s1; S754_zero s2]);
    [exact Hv |].
  rewrite isclose_one.
  replace (np.norm [S754_zero s0; S754_zero s1; S754_zero s2]) with zero
    by (destruct s0, s1, s2; reflexivity).
  replace (abs (sub one zero)) with one by (vm_compute; reflexivity).
  replace (mul np.rtol_default (abs zero)) with zero by (vm_compute; reflexivity).
  replace (eqb one zero) with false by (vm_compute; reflexivity).
  cbn [isfinite zero andb].
  replace (leb one (add atol zero)) with (leb one atol)
    by (destruct atol as [[] | [] | | [] m e]; reflexivity).
  rewrite Ha. destruct (numpy R); reflexivity.
Qed.

(** X7: the zero vector (a b0 sample) among the rows of an (N,3) input
    is rejected with the unit-vector error by every tolerance below 1. *)
Theorem zero_vector_rejected
    (R : Runtime) (vecs : ndarray) (atol : float) (s0 s1 s2 : bool) :
  shape1 vecs = 3%nat ->
  In [S754_zero s0; S754_zero s1; S754_zero s2] (rows vecs) ->
  leb one atol = false ->
  is_hemispherical R vecs atol = Raise NotUnitVectorError.
Proof.
  intros H3 Hv Ha. apply is_hemispherical_not_unit; [exact H3 |].
  apply (allclose_zero_row R _ _ s0 s1 s2); assumption.
Qed.

Lemma zero_vector_rejected_witness :
  is_hemispherical example_runtime
    (mk_ndarray 3 [[S754_zero false; S754_zero false; S754_zero false]; e1; e2])
    atol_default
  = Raise NotUnitVectorError.
Proof.
  apply (zero_vector_rejected example_runtime
           (mk_ndarray 3 [[S754_zero false; S754_zero false; S754_zero false]; e1; e2])
           atol_default false false false);
    [reflexivity | cbn; auto | vm_compute; reflexivity].
Defined.

(** ** Collinear inputs *)

Section Collinear.

Lemma mul_comm x y : mul x y = mul y x.
Proof.
  destruct x as [sx | sx | | sx mx ex], y as [sy | sy | | sy my ey];
    cbn; try reflexivity;
    try (destruct sx, sy; reflexivity).
  unfold mul, SFmul.
  rewrite (Pos.mul_comm my mx), (Z.add_comm ey ex), (xorb_comm sy sx).
  reflexivity.
Qed.

(** The cross product of two rows that are each a vector or its
    antipode. *)
Lemma cross_collinear_degenerate x y z (a b : list float) :
  a = [x; y; z] \/ a = antipode [x; y; z] ->
  b = [x; y; z] \/ b = antipode [x; y; z] ->
  length (np.cross a b) = 3%nat /\
  Forall (fun d => degenerate d = true) (np.cross a b).
Proof.
  unfold antipode. cbn [map].
  intros [-> | ->] [-> | ->]; (split; [reflexivity |]); cbn [np.cross];
    repeat constructor.
  - rewrite (mul_comm y z). apply sub_diag_degenerate.
  - rewrite (mul_comm z x). apply sub_diag_degenerate.
  - rewrite (mul_comm x y). apply sub_diag_degenerate.
  - rewrite (mul_opp_r_swap y z). apply sub_diag_degenerate.
  - rewrite (mul_opp_r_swap z x). apply sub_diag_degenerate.
  - rewrite (mul_opp_r_swap x y). apply sub_diag_degenerate.
  - rewrite (mul_opp_l_swap y z). apply sub_diag_degenerate.
  - rewrite (mul_opp_l_swap z x). apply sub_diag_degenerate.
  - rewrite (mul_opp_l_swap x y). apply sub_diag_degenerate.
  - rewrite (mul_comm (opp y) (opp z)). apply sub_diag_degenerate.
  - rewrite (mul_comm (opp z) (opp x)). apply sub_diag_degenerate.
  - rewrite (mul_comm (opp x) (opp y)). apply sub_diag_degenerate.
Qed.

End Collinear.

(** X5: a validated input of at least two vectors that are all equal to
    one vector or to its antipode (in particular the same vector given
    twice) is reported as not hemispherical, with the zero pole: every
    cross product is zero or NaN and every candidate is NaN. *)
Theorem collinear_not_hemispherical
    (R : Runtime) (vecs : ndarray) (atol x y z : float) :
  shape1 vecs = 3%nat ->
  np.allclose (numpy R) one (np.norm_axis1 (rows vecs)) atol = true ->
  (2 <= length (rows vecs))%nat ->
  Forall (fun r => r = [x; y; z] \/ r = antipode [x; y; z]) (rows vecs) ->
  is_hemispherical R vecs atol = Ok (false, [zero; zero; zero]).
Proof.
  intros H3 Hc HN Hall.
  rewrite is_hemispherical_vertices by assumption.
  rewrite existsb_all_false; [reflexivity |].
  intros c Hin. unfold candidates in Hin. apply in_map_iff in Hin.
  destruct Hin as ([a b] & <- & Hp).
  apply In_permutations2 in Hp. destruct Hp as (i & j & _ & Hi & Hj).
  rewrite Forall_forall in Hall.
  pose proof (Hall a (nth_error_In _ _ Hi)) as Ha.
  pose proof (Hall b (nth_error_In _ _ Hj)) as Hb.
  destruct (cross_collinear_degenerate x y z a b Ha Hb) as [Hl Hd].
  unfold candidate. cbn [fst snd]. rewrite normalize_degenerate by assumption.
  unfold is_vertex. destruct (rows vecs) as [| r t] eqn:Er; [cbn in HN; lia |].
  cbn [forallb].
  destruct (Hall r (or_introl eq_refl)) as [-> | ->]; reflexivity.
Qed.

Lemma collinear_not_hemispherical_witness :
  is_hemispherical example_runtime (mk_ndarray 3 [e1; e1; antipode e1]) atol_default
  = Ok (false, [zero; zero; zero]).
Proof.
  apply (collinear_not_hemispherical example_runtime
           (mk_ndarray 3 [e1; e1; antipode e1]) atol_default one zero zero).
  - reflexivity.
  - vm_compute. reflexivity.
  - cbn. lia.
  - cbn [rows].
    constructor; [left; reflexivity |].
    constructor; [left; reflexivity |].
    constructor; [right; reflexivity | constructor].
Defined.

(** ** The shape of the pole *)

Lemma length_mean_axis0 (a : list (list float)) :
  Forall (fun v => length v = 3%nat) a -> length (np.mean_axis0 a) = 3%nat.
Proof.
  intros H. destruct a as [| r t]; [reflexivity |].
  rewrite (mean_axis0_columns r t H). reflexivity.
Qed.

(** X9: on a rectangular input every returned pole has three entries. *)
Theorem pole_has_three_entries
    (R : Runtime) (vecs : ndarray) (atol : float)
    (is_hemi : bool) (pole : list float) :
  wf_ndarray vecs ->
  is_hemispherical R vecs atol = Ok (is_hemi, pole) ->
  length pole = 3%nat.
Proof.
  intros Hwf E.
  destruct (is_hemispherical_outcome R vecs atol)
    as [(H3 & E') | [(H3 & Hc & E') | [(H3 & Hc & HN & E') | (H3 & Hc & HN & _)]]];
    try congruence.
  rewrite is_hemispherical_vertices in E by assumption.
  destruct (existsb (is_vertex R vecs) (candidates vecs));
    injection E as <- <-; [| reflexivity].
  unfold normalize_1d. rewrite length_map. apply length_mean_axis0.
  apply Forall_forall. intros c Hin. apply filter_In in Hin.
  pose proof (candidates_length3 vecs Hwf H3) as Hl.
  rewrite Forall_forall in Hl. apply Hl, Hin.
Qed.

Lemma pole_has_three_entries_witness :
  exists pole,
    is_hemispherical example_runtime (mk_ndarray 3 [e1; e2; e3]) atol_default
    = Ok (true, pole) /\ length pole = 3%nat.
Proof.
  eexists. split; [vm_compute; reflexivity |].
  apply (pole_has_three_entries example_runtime (mk_ndarray 3 [e1; e2; e3]) atol_default true).
  - repeat constructor.
  - vm_compute. reflexivity.
Defined.

(** ** Further properties of [is_bval_bvec_hemispherical] *)

Section MaskedRows.

Lemma select_all_b0 (mask : list bool) (a : list (list float)) :
  Forall (fun b => b = true) mask ->
  np.select (map negb mask) a = [].
Proof.
  unfold np.select. intros H. revert a.
  induction H as [| b mask -> _ IH]; intros a; [reflexivity |].
  destruct a as [| r a]; [reflexivity |]. cbn. apply IH.
Qed.

Lemma In_select_unflagged (mask : list bool) (a : list (list float)) r :
  In (false, r) (combine mask a) -> In r (np.select (map negb mask) a).
Proof.
  unfold np.select. revert a. induction mask as [| b mask IH]; intros a Hin.
  - destruct Hin.
  - destruct a as [| r' a]; [destruct Hin |]. cbn in Hin |- *.
    destruct Hin as [[= -> ->] | Hin].
    + cbn. left. reflexivity.
    + destruct (negb b); cbn; [right |]; apply IH, Hin.
Qed.

(** The rows kept by the mask do not depend on the rows it drops. *)
Lemma select_agree (mask : list bool) (a a' : list (list float)) :
  length a = length a' ->
  (forall i, nth i mask true = false -> nth_error a i = nth_error a' i) ->
  np.select (map negb mask) a = np.select (map negb mask) a'.
Proof.
  unfold np.select. revert a a'.
  induction mask as [| b mask IH]; intros a a' Hl H; [reflexivity |].
  destruct a as [| r a], a' as [| r' a']; try discriminate Hl; [reflexivity |].
  injection Hl as Hl.
  assert (Ht : map snd (filter fst (combine (map negb mask) a))
               = map snd (filter fst (combine (map negb mask) a'))).
  { apply IH; [exact Hl |]. intros i Hi. exact (H (S i) Hi). }
  cbn. destruct b; cbn; [exact Ht |].
  pose proof (H 0%nat eq_refl) as H0. cbn in H0. injection H0 as <-.
  rewrite Ht. reflexivity.
Qed.

End MaskedRows.

(** X10: a gradient table of three columns in which every sample is
    flagged as b0 leaves no direction: the norm check passes on the
    empty selection and the call raises the unpacking [ValueError]. *)
Theorem all_b0_table_raises
    (R : Runtime)
    (gradient_table : string -> string -> result GradientTable)
    (g : GradientTable) (atol : float) :
  shape1 (bvecs g) = 3%nat ->
  length (b0s_mask g) = length (rows (bvecs g)) ->
  Forall (fun b => b = true) (b0s_mask g) ->
  is_bval_bvec_hemispherical R gradient_table (Some g) None None atol
  = Raise (ValueError ["not enough values to unpack (expected 2, got 0)"%string]).
Proof.
  intros H3 Hl Hall. unfold is_bval_bvec_hemispherical, non_b0_bvecs.
  cbn [is_None negb orb bind]. rewrite Hl, Nat.eqb_refl. cbn [bind].
  rewrite (select_all_b0 _ _ Hall).
  rewrite is_hemispherical_checked; [reflexivity | exact H3 | reflexivity].
Qed.

Lemma all_b0_table_raises_witness :
  is_bval_bvec_hemispherical example_runtime example_gradient_table
    (Some all_b0_gtab) None None atol_default
  = Raise (ValueError ["not enough values to unpack (expected 2, got 0)"%string]).
Proof.
  apply (all_b0_table_raises example_runtime example_gradient_table all_b0_gtab atol_default);
    [reflexivity | reflexivity | repeat constructor].
Defined.

(** X11: a zero b-vector that the b0 mask does not flag reaches the norm
    check, and the call raises the unit-vector error for every tolerance
    below 1. *)
Theorem unflagged_zero_sample_rejected
    (R : Runtime)
    (gradient_table : string -> string -> result GradientTable)
    (g : GradientTable) (atol : float) (s0 s1 s2 : bool) :
  shape1 (bvecs g) = 3%nat ->
  length (b0s_mask g) = length (rows (bvecs g)) ->
  In (false, [S754_zero s0; S754_zero s1; S754_zero s2])
     (combine (b0s_mask g) (rows (bvecs g))) ->
  leb one atol = false ->
  is_bval_bvec_hemispherical R gradient_table (Some g) None None atol
  = Raise NotUnitVectorError.
Proof.
  intros H3 Hl Hin Ha. unfold is_bval_bvec_hemispherical, non_b0_bvecs.
  cbn [is_None negb orb bind]. rewrite Hl, Nat.eqb_refl. cbn [bind].
  apply is_hemispherical_not_unit; [exact H3 |]. cbn [rows].
  apply (allclose_zero_row R _ _ s0 s1 s2); [| exact Ha].
  apply In_select_unflagged, Hin.
Qed.

Lemma unflagged_zero_sample_rejected_witness :
  is_bval_bvec_hemispherical example_runtime example_gradient_table
    (Some (mk_gtab (bvecs example_gtab) [false; false; false; false]))
    None None atol_default
  = Raise NotUnitVectorError.
Proof.
  apply (unflagged_zero_sample_rejected example_runtime example_gradient_table
           (mk_gtab (bvecs example_gtab) [false; false; false; false])
           atol_default false false false).
  - reflexivity.
  - reflexivity.
  - cbn. left. reflexivity.
  - vm_compute. reflexivity.
Defined.

(** X13: the call never looks at the rows flagged as b0: two tables with
    the same mask and the same unflagged rows give the same result. *)
Theorem b0_rows_are_ignored
    (R : Runtime)
    (gradient_table : string -> string -> result GradientTable)
    (g g' : GradientTable) (atol : float) :
  b0s_mask g = b0s_mask g' ->
  shape1 (bvecs g) = shape1 (bvecs g') ->
  length (rows (bvecs g)) = length (rows (bvecs g')) ->
  (forall i, nth i (b0s_mask g) true = false ->
             nth_error (rows (bvecs g)) i = nth_error (rows (bvecs g')) i) ->
  is_bval_bvec_hemispherical R gradient_table (Some g) None None atol
  = is_bval_bvec_hemispherical R gradient_table (Some g') None None atol.
Proof.
  intros Hm Hs Hl H. unfold is_bval_bvec_hemispherical, non_b0_bvecs.
  cbn [is_None negb orb bind].
  rewrite <- Hm, <- Hs, <- Hl, (select_agree _ _ _ Hl H). reflexivity.
Qed.

Lemma b0_rows_are_ignored_witness :
  is_bval_bvec_hemispherical example_runtime example_gradient_table
    (Some example_gtab) None None atol_default
  = is_bval_bvec_hemispherical example_runtime example_gradient_table
      (Some (mk_gtab (mk_ndarray 3 [[nan; one; one]; e1; e2; e3])
                     [true; false; false; false]))
      None None atol_default.
Proof.
  apply (b0_rows_are_ignored example_runtime example_gradient_table example_gtab
           (mk_gtab (mk_ndarray 3 [[nan; one; one]; e1; e2; e3])
                    [true; false; false; false]) atol_default).
  - reflexivity.
  - reflexivity.
  - reflexivity.
  - intros [| i] Hi; [discriminate Hi | reflexivity].
Defined.

(** ** The object returned by a call *)

(** X12: the pole a call returns is an array object that did not exist
    before the call: it is not the input array nor any array the caller
    held, and the input array is still in the store, unchanged, next to
    it. *)
Theorem returned_pole_is_fresh
    (R : Runtime) (a : ndarray) (atol : float)
    (s s' : Store.state) (vecs pole : Store.ref) (is_hemi : bool) :
  nth_error (Store.heap s) vecs = Some (Store.A2 a) ->
  is_hemispherical_st R vecs atol s = (Ok (is_hemi, pole), s') ->
  nth_error (Store.heap s) pole = None /\
  pole <> vecs /\
  (exists p, nth_error (Store.heap s') pole = Some (Store.A1 p)) /\
  nth_error (Store.heap s') vecs = Some (Store.A2 a).
Proof.
  intros Hv. destruct s as [h lg]. cbn [Store.heap Store.mod_logger] in *.
  assert (Hlt : (vecs < length h)%nat) by (apply nth_error_Some; congruence).
  assert (Hget : forall t, nth vecs (h ++ t) (Store.A1 []) = Store.A2 a).
  { intros t. apply nth_error_nth. rewrite nth_error_app1; [exact Hv | exact Hlt]. }
  assert (Hkeep : forall t, nth_error (h ++ t) vecs = Some (Store.A2 a)).
  { intros t. rewrite nth_error_app1; [exact Hv | exact Hlt]. }
  pose proof (Hget []) as Hget0. rewrite app_nil_r in Hget0.
  unfold is_hemispherical_st.
  unfold Store.bindM at 1. unfold Store.get at 1. cbn [Store.heap].
  rewrite Hget0. cbn [Store.as_2d].
  destruct (negb (shape1 a =? 3)%nat); [discriminate |].
  destruct (negb (np.allclose (numpy R) one (np.norm_axis1 (rows a)) atol));
    [discriminate |].
  destruct (itertools.permutations2 (rows a)) as [| p ps]; [discriminate |].
  rewrite unpack2_zip_star_cons.
  unfold Store.bindM, Store.lift, Store.new, Store.get, Store.put, Store.raise, Store.ret.
  cbn [Store.heap Store.mod_logger fst snd].
  rewrite nth_app_length, update_app_length, nth_app_length, Hget.
  cbn [Store.as_2d rows].
  set (C := Store.A2 (mk_ndarray 3 _)).
  assert (Hfresh : forall (P : list float) (q : Store.ref) (t : Store.state) b,
    (Ok (b, length (h ++ [C])),
     Store.mk_state ((h ++ [C]) ++ [Store.A1 P]) lg) = (Ok (is_hemi, q), t) ->
    nth_error h q = None /\ q <> vecs /\
    (exists p0, nth_error (Store.heap t) q = Some (Store.A1 p0)) /\
    nth_error (Store.heap t) vecs = Some (Store.A2 a)).
  { intros P q t b [= _ <- <-]. cbn [Store.heap].
    rewrite length_app. cbn [length]. repeat split.
    - apply nth_error_None. lia.
    - lia.
    - exists P. replace (length h + 1)%nat with (length (h ++ [C]))
        by (rewrite length_app; reflexivity).
      rewrite nth_error_app2, Nat.sub_diag by lia. reflexivity.
    - rewrite <- app_assoc. apply Hkeep. }
  match goal with |- context [existsb ?f ?l] => destruct (existsb f l) end;
    cbn [Store.heap Store.mod_logger].
  - rewrite nth_app_length, update_app_length. cbn [Store.heap Store.as_1d].
    apply Hfresh.
  - apply Hfresh.
Qed.

Lemma returned_pole_is_fresh_witness :
  let s := Store.mk_state [Store.A2 (mk_ndarray 3 [e1; e2; e3])] [] in
  let out := is_hemispherical_st example_runtime 0%nat atol_default s in
  exists pole,
    fst out = Ok (true, pole) /\
    nth_error (Store.heap s) pole = None /\
    nth_error (Store.heap (snd out)) 0%nat = Some (Store.A2 (mk_ndarray 3 [e1; e2; e3])).
Proof.
  intros s out.
  destruct out as [r s'] eqn:E. unfold out in E.
  assert (Hr : r = Ok (true, 2%nat)).
  { revert E. vm_compute. intros [= <- _]. reflexivity. }
  subst r. exists 2%nat. split; [reflexivity |].
  destruct (returned_pole_is_fresh example_runtime (mk_ndarray 3 [e1; e2; e3])
              atol_default s s' 0%nat 2%nat true eq_refl E) as (Hn & _ & _ & Hk).
  split; [exact Hn | exact Hk].
Defined.

(** ** Inputs of two vectors *)

Section TwoVectors.

Lemma binary_round_aux_opp s m e l :
  binary_round_aux prec emax (negb s) m e l
  = opp (binary_round_aux prec emax s m e l).
Proof.
  unfold binary_round_aux.
  destruct (shr_fexp prec emax m e l) as [mrs' e'].
  destruct (shr_fexp prec emax _ e' loc_Exact) as [mrs'' e''].
  destruct (shr_m mrs''); [reflexivity | | reflexivity].
  destruct (Z.leb e'' (Z.sub emax prec)); reflexivity.
Qed.

Lemma binary_round_opp m e :
  binary_round prec emax true m e = opp (binary_round prec emax false m e).
Proof.
  unfold binary_round. destruct (shl_align _ _ _) as [mz ez].
  apply (binary_round_aux_opp false).
Qed.

Lemma opp_involutive x : opp (opp x) = x.
Proof. destruct x as [[] | [] | | [] m e]; reflexivity. Qed.

Lemma mirror_zero s s' : mirror (S754_zero s) (S754_zero s').
Proof. right. eauto. Qed.

Lemma binary_normalize_mirror z e :
  mirror (binary_normalize prec emax z e false)
         (binary_normalize prec emax (- z) e false).
Proof.
  destruct z as [| m | m]; cbn [Z.opp binary_normalize].
  - apply mirror_zero.
  - left. apply binary_round_opp.
  - left. rewrite binary_round_opp, opp_involutive. reflexivity.
Qed.

(** Subtraction the other way round gives the mirrored value. *)
Lemma sub_swap_mirror p q : mirror (sub p q) (sub q p).
Proof.
  destruct p as [sp | sp | | sp mp ep], q as [sq | sq | | sq mq eq];
    try (left; reflexivity);
    try (destruct sp, sq; (left; reflexivity) || apply mirror_zero).
  unfold sub, SFsub. rewrite (Z.min_comm eq ep).
  match goal with |- mirror (binary_normalize _ _ (?a - ?b) _ _) _ =>
    replace (b - a) with (- (a - b)) by lia end.
  apply binary_normalize_mirror.
Qed.

Lemma mul_self_mirror x y : mirror x y -> mul y y = mul x x.
Proof.
  intros [-> | ((s & ->) & (s' & ->))].
  - destruct x as [[] | [] | | [] m e]; reflexivity.
  - destruct s, s'; reflexivity.
Qed.

Lemma div_mirror x y n : mirror x y -> mirror (div x n) (div y n).
Proof.
  intros [-> | ((s & ->) & (s' & ->))].
  - left. destruct x as [sx | sx | | sx mx ex], n as [sn | sn | | sn mn en];
      try reflexivity; try (destruct sx, sn; reflexivity).
    unfold div, SFdiv, opp, SFopp.
    destruct (SFdiv_core_binary prec emax (Z.pos mx) ex (Z.pos mn) en) as [[mz ez] lz].
    replace (xorb (negb sx) sn) with (negb (xorb sx sn)) by (destruct sx, sn; reflexivity).
    apply binary_round_aux_opp.
  - destruct n as [sn | sn | | sn mn en]; cbn;
      try apply mirror_zero; left; reflexivity.
Qed.

Lemma add_mirror_degenerate x y : mirror x y -> degenerate (add x y) = true.
Proof.
  intros [-> | ((s & ->) & (s' & ->))].
  - destruct x as [[] | [] | | s m e]; try reflexivity.
    unfold add, SFadd, opp, SFopp. rewrite Z.min_id.
    replace (cond_Zopp s (Z.pos (fst (shl_align m e e)))
             + cond_Zopp (negb s) (Z.pos (fst (shl_align m e e)))) with 0
      by (destruct s; cbn [cond_Zopp negb]; lia).
    reflexivity.
  - destruct s, s'; reflexivity.
Qed.

Lemma div_two_degenerate d :
  degenerate d = true -> degenerate (div d (of_Z 2)) = true.
Proof.
  destruct d as [[] | [] | | [] m e]; try discriminate; reflexivity.
Qed.

(** The cross product the other way round, entry by entry. *)
Lemma cross_swap_mirror a0 a1 a2 b0 b1 b2 :
  Forall2 mirror (np.cross [a0; a1; a2] [b0; b1; b2])
                 (np.cross [b0; b1; b2] [a0; a1; a2]).
Proof.
  cbn [np.cross].
  apply Forall2_cons; [| apply Forall2_cons; [| apply Forall2_cons; [| apply Forall2_nil]]].
  - rewrite (mul_comm b1 a2), (mul_comm b2 a1). apply sub_swap_mirror.
  - rewrite (mul_comm b2 a0), (mul_comm b0 a2). apply sub_swap_mirror.
  - rewrite (mul_comm b0 a1), (mul_comm b1 a0). apply sub_swap_mirror.
Qed.

(** Two mirrored rows, normalised, add up to zeros or NaNs. *)
Lemma normalize_mirror_sum (u w : list float) :
  length u = 3%nat ->
  Forall2 mirror u w ->
  Forall (fun d => degenerate d = true) (np.add_rows (np.normalize u) (np.normalize w)).
Proof.
  intros Hl H.
  destruct u as [| u0 [| u1 [| u2 [| ? ?]]]]; try discriminate Hl.
  inversion H as [| ? w0 ? ? H0 H']; subst.
  inversion H' as [| ? w1 ? ? H1 H'']; subst.
  inversion H'' as [| ? w2 ? ? H2 H''']; subst.
  inversion H'''; subst.
  assert (Hn : np.norm [w0; w1; w2] = np.norm [u0; u1; u2]).
  { unfold np.norm. cbn [map].
    rewrite (mul_self_mirror _ _ H0), (mul_self_mirror _ _ H1), (mul_self_mirror _ _ H2).
    reflexivity. }
  unfold np.normalize. rewrite Hn. cbn [map np.add_rows combine fst snd].
  apply Forall_cons; [| apply Forall_cons; [| apply Forall_cons; [| apply Forall_nil]]];
    apply add_mirror_degenerate, div_mirror; assumption.
Qed.


(** The norm of a one-dimensional array of zeros and NaNs is zero or
    NaN, and the division by it gives NaN, provided the routine behind
    [np.dot] returns a zero (or NaN) for the inner product of zeros. *)
Lemma normalize_1d_degenerate (R : Runtime) (m : list float) :
  (forall s0 s1 s2,
     degenerate (blas_dot R [S754_zero s0; S754_zero s1; S754_zero s2]
                            [S754_zero s0; S754_zero s1; S754_zero s2]) = true) ->
  length m = 3%nat ->
  Forall (fun d => degenerate d = true) m ->
  normalize_1d R m = [nan; nan; nan].
Proof.
  intros Hz Hl Hd.
  destruct m as [| d0 [| d1 [| d2 [| ? ?]]]]; try discriminate Hl.
  inversion Hd as [| ? ? H0 Hd1]; subst.
  inversion Hd1 as [| ? ? H1 Hd2]; subst.
  inversion Hd2 as [| ? ? H2 _]; subst.
  destruct d0 as [s0 | | |], d1 as [s1 | | |], d2 as [s2 | | |];
    try discriminate; try reflexivity;
    try (destruct s0; reflexivity); try (destruct s1; reflexivity).
  - unfold normalize_1d, norm_1d, dot. cbn [np.has_nan existsb isnan orb].
    specialize (Hz s0 s1 s2).
    destruct (blas_dot R _ _) as [[] | | |]; try discriminate Hz;
      destruct s0, s1, s2; reflexivity.
Qed.

End TwoVectors.

(** X14: on a validated input of two vectors, when both candidates (the
    two cross products, one for each order of the pair) pass against
    both vectors, the function returns [is_hemi = true] with a pole that
    is NaN in every coordinate: the two candidates are mirror images,
    their mean is zero and its normalisation divides zero by zero.  The
    pass tests are those of the runtime's [np.dot]; of it the statement
    assumes only that the inner product of zeros is a zero or NaN. *)
Theorem two_vertices_give_nan_pole
    (R : Runtime) (atol a0 a1 a2 b0 b1 b2 : float) :
  let vecs := mk_ndarray 3 [[a0; a1; a2]; [b0; b1; b2]] in
  (forall s0 s1 s2,
     degenerate (blas_dot R [S754_zero s0; S754_zero s1; S754_zero s2]
                            [S754_zero s0; S754_zero s1; S754_zero s2]) = true) ->
  np.allclose (numpy R) one (np.norm_axis1 (rows vecs)) atol = true ->
  is_vertex R vecs (candidate ([a0; a1; a2], [b0; b1; b2])) = true ->
  is_vertex R vecs (candidate ([b0; b1; b2], [a0; a1; a2])) = true ->
  is_hemispherical R vecs atol = Ok (true, [nan; nan; nan]).
Proof.
  intros vecs Hz Hc H1 H2.
  rewrite is_hemispherical_vertices; [| reflexivity | exact Hc | cbn; lia].
  unfold candidates. cbn [rows vecs itertools.permutations2
    itertools.permutations2_from app map existsb filter].
  fold vecs. rewrite H1, H2. cbn [orb].
  f_equal. f_equal.
  apply (normalize_1d_degenerate R _ Hz).
  - unfold np.mean_axis0. rewrite length_map. reflexivity.
  - unfold np.mean_axis0. cbn [np.sum_axis0 fold_left length].
    pose proof (normalize_mirror_sum _ _ (length_cross3 a0 a1 a2 b0 b1 b2)
                  (cross_swap_mirror a0 a1 a2 b0 b1 b2)) as Hs.
    unfold candidate. cbn [fst snd].
    apply Forall_forall. intros d Hd. apply in_map_iff in Hd.
    destruct Hd as (x & <- & Hx). rewrite Forall_forall in Hs.
    apply div_two_degenerate, Hs, Hx.
Qed.

Lemma two_vertices_give_nan_pole_witness :
  is_hemispherical example_runtime (mk_ndarray 3 [e1; e2]) atol_default
  = Ok (true, [nan; nan; nan]).
Proof.
  apply (two_vertices_give_nan_pole example_runtime atol_default
           one zero zero zero one zero).
  - intros [] [] []; reflexivity.
  - vm_compute. reflexivity.
  - vm_compute. reflexivity.
  - vm_compute. reflexivity.
Defined.
